(** * bettercap-ng: modules/http_proxy_base.go

    A shallow embedding of the HTTP/HTTPS interception proxy
    ([modules/http_proxy_base.go]) and the properties of its host filter,
    certificate cache, SNI bridge, CONNECT adapter, hook dispatcher and
    listener life cycle.

    Go strings are byte strings ([string]), [int] is a 64-bit integer kept
    in [Z], [[]byte] is [list byte], a Go [error] is its message and [nil]
    pointers and errors are [None]. *)

From Stdlib Require Import ZArith String Ascii List Bool Lia.
From Stdlib.Strings Require Import Byte.
From stdpp Require Import gmap strings pretty.
Import ListNotations.

Local Open Scope string_scope.
Local Open Scope Z_scope.

(** ** The pieces of the Go standard library the proxy calls *)

Module GoLib.

(** A Go [error] value, identified with its message. *)
Definition error : Type := string.

(** [strings.HasPrefix(s, prefix)]. *)
Definition HasPrefix (s prefix : string) : bool := String.prefix prefix s.

(** [strings.IndexRune(s, r)] for an ASCII rune; [None] is Go's [-1]. *)
Fixpoint IndexRune (s : string) (r : ascii) : option nat :=
  match s with
  | EmptyString => None
  | String a rest =>
      if Ascii.eqb a r then Some 0%nat
      else match IndexRune rest r with
           | Some ix => Some (S ix)
           | None => None
           end
  end.

(** Go 1.18's [strings.Cut]: the text before and after the first [sep]. *)
Fixpoint Cut (sep : ascii) (s : string) : option (string * string) :=
  match s with
  | EmptyString => None
  | String a rest =>
      if Ascii.eqb a sep then Some (EmptyString, rest)
      else match Cut sep rest with
           | Some (before, after) => Some (String a before, after)
           | None => None
           end
  end.

(** [strings.SplitN(s, sep, 2)] for a one-byte separator: the whole string
    when [sep] does not occur, otherwise the text before the first [sep]
    and everything after it. *)
Definition SplitN_2 (s : string) (sep : ascii) : list string :=
  match Cut sep s with
  | None => [s]
  | Some (before, after) => [before; after]
  end.

(** [strings.Split(s, sep)] for a one-byte separator. *)
Fixpoint Split (s : string) (sep : ascii) : list string :=
  match s with
  | EmptyString => [EmptyString]
  | String a rest =>
      if Ascii.eqb a sep then EmptyString :: Split rest sep
      else match Split rest sep with
           | piece :: pieces => String a piece :: pieces
           | [] => [String a EmptyString]
           end
  end.

(** The platform's [int]: 64 bits. *)
Definition intSize : Z := 64.
Definition maxInt : Z := 2 ^ (intSize - 1) - 1.
Definition minInt : Z := - 2 ^ (intSize - 1).

Definition digit_of (a : ascii) : option Z :=
  let n := Z.of_N (N_of_ascii a) in
  if (48 <=? n) && (n <=? 57) then Some (n - 48) else None.

Fixpoint digits (s : string) (acc : Z) : option Z :=
  match s with
  | EmptyString => Some acc
  | String a rest =>
      match digit_of a with
      | Some d => digits rest (acc * 10 + d)
      | None => None
      end
  end.

(** [strconv.Atoi]: an optional sign, then at least one decimal digit, the
    value in the range of [int]; [None] stands for a non-nil error
    (syntax or range). *)
Definition Atoi (s : string) : option Z :=
  match s with
  | EmptyString => None
  | String a rest =>
      let signed := Ascii.eqb a "-" || Ascii.eqb a "+" in
      let body := if signed then rest else s in
      match body with
      | EmptyString => None
      | _ =>
          match digits body 0 with
          | None => None
          | Some n =>
              let v := if Ascii.eqb a "-" then - n else n in
              if (minInt <=? v) && (v <=? maxInt) then Some v else None
          end
      end
  end.

(** [net.JoinHostPort]: a host with a colon is taken for an IPv6 literal
    and bracketed. *)
Definition JoinHostPort (host port : string) : string :=
  match IndexRune host ":" with
  | Some _ => "[" ++ host ++ "]:" ++ port
  | None => host ++ ":" ++ port
  end.

(** [bytes.Equal]. *)
Fixpoint bytes_Equal (a b : list byte) : bool :=
  match a, b with
  | [], [] => true
  | x :: a', y :: b' => Byte.eqb x y && bytes_Equal a' b'
  | _, _ => false
  end.

(** The decimal text of an [int], as [%d] prints it. *)
Definition itoa (z : Z) : string := pretty z.

End GoLib.

(** ** Requests, log lines and the values that cross the proxy *)

Import GoLib.

(** [url.URL], the fields the proxy reads or writes. *)
Record URL := mkURL {
  URL_Opaque : string;
  URL_Host : string;
  URL_Path : string
}.

(** [http.Request], the fields the proxy reads or writes. *)
Record Request := mkRequest {
  Method : string;
  ReqURL : URL;
  Host : string;
  RemoteAddr : string;
  Header : list (string * list string)
}.

(** [firewall.Redirection], as [firewall.NewRedirection(iface, proto,
    port_from, addr_to, port_to)] fills it. *)
Record Redirection := mkRedirection {
  Interface : string;
  Protocol : string;
  SrcPort : Z;
  DstAddress : string;
  DstPort : Z
}.

#[global] Instance Redirection_eq_dec : EqDecision Redirection.
Proof. solve_decision. Defined.

Inductive Level := LDebug | LInfo | LWarning | LError.

(** An argument of a log call; [AStyled] is a string wrapped by one of
  [core.Green], [core.Yellow] or [core.Bold]. *)
Inductive Arg :=
| AStr (s : string)
| AInt (z : Z)
| AErr (e : error)
| AReq (r : Request)
| ARedirection (r : Redirection)
| AStyled (style s : string).

(** One call of [log.Debug], [log.Info], [log.Warning] or [log.Error]:
  the level, the format string and the arguments. *)
Definition LogEntry : Type := Level * string * list Arg.

(** ** Host filter *)

Module HostFilter.

Definition blacklist : list string := ["localhost"; "127.0.0.1"].

(** The [for _, blacklisted := range blacklist] loop of [doProxy]: [Some]
    of the log line at the first blacklisted prefix, [None] when the loop
    runs to its end. *)
Fixpoint scan_blacklist (host : string) (bl : list string) : option LogEntry :=
  match bl with
  | [] => None
  | blacklisted :: rest =>
      if HasPrefix host blacklisted
      then Some (LError, "Got request with blacklisted host: %s", [AStr host])
      else scan_blacklist host rest
  end.

(** [HTTPProxy.doProxy]: the verdict and the lines it logs. *)
Definition doProxy (req : Request) : bool * list LogEntry :=
  if String.eqb (Host req) ""
  then (false, [(LError, "Got request with empty host: %v", [AReq req])])
  else match scan_blacklist (Host req) blacklist with
       | Some line => (false, [line])
       | None => (true, [])
       end.

End HostFilter.

(** ** Certificate cache and forger *)

Module CertCache.
Section Forger.

(** [tls.Certificate]: a certificate chain with its private key. *)
Variable Certificate : Type.

(** [btls.SignCertificateForHost(ca, hostname, port)] draws a fresh key and
    serial number on every call; the first argument is the number of
    signing operations made before this one. *)
Variable SignCertificateForHost :
  nat -> Certificate -> string -> Z -> Certificate + error.

(** [tls.Config], the two fields [TLSConfigFromCA] sets. *)
Record Config := mkConfig {
  InsecureSkipVerify : bool;
  Certificates : list Certificate
}.

(** What an invocation can touch: the package's certificate cache, the
    signing operations made so far (oldest first) and the log. *)
Record State := mkState {
  certCache : gmap (string * Z) Certificate;
  signings : list (string * Z);
  logged : list LogEntry
}.

(** Modelled from the spec: [getCachedCert] is declared in another file of
    the package; it looks [(hostname, port)] up in the cache and returns the
    stored certificate, [None] (Go's [nil]) when there is none. *)
Definition getCachedCert (hostname : string) (port : Z) (st : State)
  : option Certificate :=
  certCache st !! (hostname, port).

(** Modelled from the spec: [setCachedCert] is declared in another file of
    the package; it stores the certificate under [(hostname, port)]. *)
Definition setCachedCert (hostname : string) (port : Z) (cert : Certificate)
  (st : State) : State :=
  mkState (<[(hostname, port) := cert]> (certCache st)) (signings st) (logged st).

Definition log_line (line : LogEntry) (st : State) : State :=
  mkState (certCache st) (signings st) (logged st ++ [line]).

(** One call of the signing operation: it is recorded, and its outcome is
    the signer's. *)
Definition sign (ca : Certificate) (hostname : string) (port : Z) (st : State)
  : State * (Certificate + error) :=
  (mkState (certCache st) (signings st ++ [(hostname, port)]) (logged st),
   SignCertificateForHost (List.length (signings st)) ca hostname port).

(** Lines 173-181: the cache key of a [host] or [host:port] string. *)
Definition hostPort (host : string) : string * Z :=
  let parts := SplitN_2 host ":" in
  let hostname := nth 0 parts "" in
  let port :=
    if (1 <? List.length parts)%nat
    then match Atoi (nth 1 parts "") with
         | Some port => port
         | None => 443
         end
    else 443 in
  (hostname, port).

(** Lines 185-190: the miss branch up to the signer's answer. *)
Definition forge (ca : Certificate) (hostname : string) (port : Z) (st : State)
  : State * (Certificate + error) :=
  let st := log_line (LInfo, "Creating spoofed certificate for %s:%d",
                      [AStyled "yellow" hostname; AInt port]) st in
  let '(st, signed) := sign ca hostname port st in
  match signed with
  | inr err =>
      (log_line (LWarning, "Cannot sign host certificate with provided CA: %s",
                 [AErr err]) st, inr err)
  | inl cert => (st, inl cert)
  end.

(** Lines 195-200. *)
Definition config_of (cert : Certificate) : Config := mkConfig true [cert].

(** Lines 183-200 for a parsed key: the spec's [GetOrCreate(hostname, port)]. *)
Definition GetOrCreate (ca : Certificate) (hostname : string) (port : Z)
  (st : State) : State * (Config + error) :=
  match getCachedCert hostname port st with
  | Some cert => (st, inl (config_of cert))
  | None =>
      let '(st, signed) := forge ca hostname port st in
      match signed with
      | inr err => (st, inr err)
      | inl cert => (setCachedCert hostname port cert st, inl (config_of cert))
      end
  end.

(** The closure [TLSConfigFromCA(ca)] returns, applied to [host]. *)
Definition TLSConfigFromCA (ca : Certificate) (host : string) (st : State)
  : State * (Config + error) :=
  let '(hostname, port) := hostPort host in
  GetOrCreate ca hostname port st.

(** *** Concurrent invocations

    The proxy core calls the closure from one goroutine per connection.  A
    call is cut at its accesses to the shared cache: the lookup, the signing
    and the store each happen at once, as the mutex inside [getCachedCert]
    and [setCachedCert] makes them, and nothing holds a lock from one to the
    next. *)
Inductive Call :=
| AtLookup (host : string)
| AtSign (hostname : string) (port : Z)
| AtStore (hostname : string) (port : Z) (cert : Certificate)
| Returned (result : Config + error).

(** The next access of one call. *)
Definition step_call (ca : Certificate) (c : Call) (st : State) : State * Call :=
  match c with
  | AtLookup host =>
      let '(hostname, port) := hostPort host in
      match getCachedCert hostname port st with
      | Some cert => (st, Returned (inl (config_of cert)))
      | None => (st, AtSign hostname port)
      end
  | AtSign hostname port =>
      let '(st, signed) := forge ca hostname port st in
      match signed with
      | inr err => (st, Returned (inr err))
      | inl cert => (st, AtStore hostname port cert)
      end
  | AtStore hostname port cert =>
      (setCachedCert hostname port cert st, Returned (inl (config_of cert)))
  | Returned result => (st, Returned result)
  end.

(** The scheduler lets call number [i] make its next access. *)
Definition step_thread (ca : Certificate) (i : nat) (sys : State * list Call)
  : State * list Call :=
  match snd sys !! i with
  | Some c =>
      let '(st, c') := step_call ca c (fst sys) in
      (st, <[i := c']> (snd sys))
  | None => sys
  end.

(** A schedule is the order in which the calls get their turns. *)
Fixpoint run_schedule (ca : Certificate) (schedule : list nat)
  (sys : State * list Call) : State * list Call :=
  match schedule with
  | [] => sys
  | i :: rest => run_schedule ca rest (step_thread ca i sys)
  end.

(** The calls that have not yet passed the signing operation. *)
Definition before_signing (c : Call) : bool :=
  match c with
  | AtLookup _ | AtSign _ _ => true
  | _ => false
  end.

(** How many of the calls have not yet passed the signing operation. *)
Fixpoint pending (calls : list Call) : nat :=
  match calls with
  | [] => 0%nat
  | c :: rest => ((if before_signing c then 1 else 0) + pending rest)%nat
  end.

End Forger.

Arguments mkConfig {Certificate}.
Arguments InsecureSkipVerify {Certificate}.
Arguments Certificates {Certificate}.
Arguments mkState {Certificate}.
Arguments certCache {Certificate}.
Arguments signings {Certificate}.
Arguments logged {Certificate}.
Arguments getCachedCert {Certificate}.
Arguments setCachedCert {Certificate}.
Arguments log_line {Certificate}.
Arguments sign {Certificate}.
Arguments forge {Certificate}.
Arguments config_of {Certificate}.
Arguments GetOrCreate {Certificate}.
Arguments TLSConfigFromCA {Certificate}.
Arguments AtLookup {Certificate}.
Arguments AtSign {Certificate}.
Arguments AtStore {Certificate}.
Arguments Returned {Certificate}.
Arguments step_call {Certificate}.
Arguments step_thread {Certificate}.
Arguments run_schedule {Certificate}.
Arguments before_signing {Certificate}.
Arguments pending {Certificate}.

(** A signer to test against: a certificate is its subject and a serial
    number, the serial counts the signing operations, and the empty name
    cannot be signed. *)
Definition toy_sign (n : nat) (ca : string * nat) (hostname : string)
  (port : Z) : string * nat + error :=
  if String.eqb hostname "" then inr "x509: empty subject"
  else inl (hostname, n).

Definition toy_ca : string * nat := ("bettercap CA", 0%nat).

Definition fresh : State (string * nat) := mkState ∅ [] [].

End CertCache.

(** ** CONNECT adapter *)

Module Adapter.
Section RawConn.

(** The [net.Conn] embedded in [dumbResponseWriter]: the state of the raw
    connection, and its [Write], which answers with the count of bytes
    written and an error. *)
Variable Conn : Type.
Variable Conn_Write : Conn -> list byte -> Conn * (Z * option error).

(** The bytes of the literal ["HTTP/1.0 200 OK\r\n\r\n"]. *)
Definition okConnect : list byte :=
  list_byte_of_string "HTTP/1.0 200 OK" ++ [x0d; x0a; x0d; x0a]%byte.

(** [dumbResponseWriter.Write]. *)
Definition dumbResponseWriter_Write (dumb : Conn) (buf : list byte)
  : Conn * (Z * option error) :=
  if bytes_Equal buf okConnect
  then (dumb, (Z.of_nat (List.length buf), None))
  else Conn_Write dumb buf.

(** The contract [io.Writer] puts on a [Write]: the count is between 0 and
    the buffer's length, and a short count comes with an error. *)
Definition io_Writer (write : Conn -> list byte -> Conn * (Z * option error))
  : Prop :=
  forall c buf,
    let '(_, (n, err)) := write c buf in
    0 <= n <= Z.of_nat (List.length buf) /\
    (n < Z.of_nat (List.length buf) -> err <> None).

End RawConn.

Arguments dumbResponseWriter_Write {Conn}.
Arguments io_Writer {Conn}.

(** A raw connection to test against: the bytes that reached the wire, and
    whether the peer is still there. *)
Record Pipe := mkPipe {
  wire : list byte;
  connected : bool
}.

Definition Pipe_Write (c : Pipe) (buf : list byte) : Pipe * (Z * option error) :=
  if connected c
  then (mkPipe (wire c ++ buf) true, (Z.of_nat (List.length buf), None))
  else (c, (0, Some "write: broken pipe")).

End Adapter.

(** ** SNI sniffer and CONNECT bridge *)

Module SNI.
Section Bridge.

(** An accepted [net.Conn] and the [vhost.TLSConn] wrapped around it. *)
Variable Conn : Type.
Variable TLSConn : Type.

(** [vhost.TLS(c)] reads the ClientHello off the connection: the wrapped
    connection and the error of the read, if any.  It closes nothing. *)
Variable vhost_TLS : Conn -> TLSConn * option error.

(** [tlsConn.Host()]: the server name of the ClientHello, empty when the
    client sent none. *)
Variable TLSConn_Host : TLSConn -> string.

(** [c.RemoteAddr().String()]. *)
Variable Conn_RemoteAddr : Conn -> string.

(** What the goroutine of one accepted connection does to the outside, in
    order. *)
Inductive Effect :=
| Log (line : LogEntry)
| ServeHTTP (w : TLSConn) (req : Request)
| Close (c : Conn).

(** [stripPort]. *)
Definition stripPort (s : string) : string :=
  match IndexRune s ":" with
  | None => s
  | Some ix => substring 0 ix s
  end.

(** Lines 296-304. *)
Definition connect_request (hostname : string) : Request :=
  mkRequest "CONNECT"
            (mkURL hostname (JoinHostPort hostname "443") "")
            hostname "" [].

(** Lines 281-307 of [httpsWorker]: the goroutine started for the accepted
    connection [c]. *)
Definition httpsWorker_conn (c : Conn) : list Effect :=
  let '(tlsConn, err) := vhost_TLS c in
  match err with
  | Some err => [Log (LWarning, "Error reading SNI: %s.", [AErr err])]
  | None =>
      let hostname := TLSConn_Host tlsConn in
      if String.eqb hostname ""
      then [Log (LWarning, "Client does not support SNI.", [])]
      else [Log (LDebug, "Got new SNI from %s for %s",
                 [AStyled "bold" (stripPort (Conn_RemoteAddr c));
                  AStyled "yellow" hostname]);
            ServeHTTP tlsConn (connect_request hostname)]
  end.

Definition is_ServeHTTP (e : Effect) : bool :=
  match e with ServeHTTP _ _ => true | _ => false end.

Definition is_Close (e : Effect) : bool :=
  match e with Close _ => true | _ => false end.

Definition is_Warning (e : Effect) : bool :=
  match e with Log (LWarning, _, _) => true | _ => false end.

End Bridge.

Arguments Log {Conn TLSConn}.
Arguments ServeHTTP {Conn TLSConn}.
Arguments Close {Conn TLSConn}.
Arguments httpsWorker_conn {Conn TLSConn}.
Arguments is_ServeHTTP {Conn TLSConn}.
Arguments is_Close {Conn TLSConn}.
Arguments is_Warning {Conn TLSConn}.

(** A sniffer to test against: a connection is the bytes the client sent,
    and a ClientHello is recognised by the handshake record type 0x16; the
    server name is taken to follow the three header bytes. *)
Definition toy_TLS (c : list byte) : string * option error :=
  match c with
  | x16%byte :: _ :: _ :: name => (string_of_list_byte name, None)
  | _ => ("", Some "not a TLS handshake")
  end.

End SNI.

(** ** Interception hook dispatcher *)

Module Hooks.
Section Dispatcher.

(** [*ProxyScript], [*JSResponse] and [*http.Response]. *)
Variable Script : Type.
Variable JSResponse : Type.
Variable Response : Type.

(** The script's two handlers; [None] is a [nil] result: pass through. *)
Variable Script_OnRequest : Script -> Request -> option JSResponse.
Variable Script_OnResponse : Script -> Response -> option JSResponse.

(** [jsres.Body] and [jsres.ToResponse(req)]. *)
Variable JSResponse_Body : JSResponse -> string.
Variable JSResponse_ToResponse : JSResponse -> Request -> Response.

(** [res.Request]. *)
Variable Response_Request : Response -> Request.

(** [ctx.RoundTrip(req)]: the answer of the real upstream. *)
Variable RoundTrip : Request -> Response + error.

(** The payload of a [spoofed-response] event. *)
Record SpoofedResponse := mkSpoofed {
  To : string;
  EvMethod : string;
  EvHost : string;
  EvPath : string;
  Size : Z
}.

(** A call into the script. *)
Inductive HookCall :=
| CalledOnRequest (req : Request)
| CalledOnResponse (res : Response).

(** The fields of [HTTPProxy] the handlers read. *)
Record HTTPProxy := mkProxy {
  Name : string;
  PScript : option Script
}.

(** What the handlers act on: the session's event sink, the calls made
    into the script, the requests sent upstream and the log. *)
Record World := mkWorld {
  events : list (string * SpoofedResponse);
  hookCalls : list HookCall;
  roundTrips : list Request;
  logged : list LogEntry
}.

Definition add_event (name : string) (e : SpoofedResponse) (w : World) : World :=
  mkWorld (events w ++ [(name, e)]) (hookCalls w) (roundTrips w) (logged w).

Definition add_hookCall (c : HookCall) (w : World) : World :=
  mkWorld (events w) (hookCalls w ++ [c]) (roundTrips w) (logged w).

Definition add_roundTrip (req : Request) (w : World) : World :=
  mkWorld (events w) (hookCalls w) (roundTrips w ++ [req]) (logged w).

Definition add_log (line : LogEntry) (w : World) : World :=
  mkWorld (events w) (hookCalls w) (roundTrips w) (logged w ++ [line]).

(** The event [logAction] builds from the request and the script's answer. *)
Definition spoofed (req : Request) (jsres : JSResponse) : SpoofedResponse :=
  mkSpoofed (nth 0 (Split (RemoteAddr req) ":") "")
            (Method req)
            (Host req)
            (URL_Path (ReqURL req))
            (Z.of_nat (String.length (JSResponse_Body jsres))).

(** [HTTPProxy.logAction]. *)
Definition logAction (p : HTTPProxy) (req : Request) (jsres : JSResponse)
  (w : World) : World :=
  add_event (Name p ++ ".spoofed-response") (spoofed req jsres) w.

Definition debug_line (p : HTTPProxy) (dir : string) (req : Request) : LogEntry :=
  (LDebug, "(%s) " ++ dir ++ " %s %s %s%s",
   [AStyled "green" (Name p); AStr (RemoteAddr req); AStr (Method req);
    AStr (Host req); AStr (URL_Path (ReqURL req))]).

(** The function given to [p.Proxy.OnRequest().DoFunc] (lines 68-78). *)
Definition OnRequest_DoFunc (p : HTTPProxy) (req : Request) (w : World)
  : World * (Request * option Response) :=
  let w := add_log (debug_line p "<" req) w in
  match PScript p with
  | Some script =>
      let w := add_hookCall (CalledOnRequest req) w in
      match Script_OnRequest script req with
      | Some jsres =>
          (logAction p req jsres w, (req, Some (JSResponse_ToResponse jsres req)))
      | None => (w, (req, None))
      end
  | None => (w, (req, None))
  end.

(** The function given to [p.Proxy.OnResponse().DoFunc] (lines 80-91), on a
    response that is not [nil]. *)
Definition OnResponse_DoFunc (p : HTTPProxy) (res : Response) (w : World)
  : World * Response :=
  let req := Response_Request res in
  let w := add_log (debug_line p ">" req) w in
  match PScript p with
  | Some script =>
      let w := add_hookCall (CalledOnResponse res) w in
      match Script_OnResponse script res with
      | Some jsres =>
          (logAction p (Response_Request res) jsres w,
           JSResponse_ToResponse jsres (Response_Request res))
      | None => (w, res)
      end
  | None => (w, res)
  end.

(** How an exchange ends: with a response for the client, or in the panic
    of a handler. *)
Inductive Outcome :=
| Replied (res : Response)
| Panicked (why : string).

(** The path of one request through goproxy's [ProxyHttpServer.ServeHTTP]
    (the library's [proxy.go]): the request handlers run first; the request
    goes upstream only when no handler made a response; the response
    handlers then run on the response there is, whoever made it.  After a
    failed round trip goproxy hands the response handlers a [nil] response,
    whose [Request] field the handler above reads first thing. *)
Definition exchange (p : HTTPProxy) (req : Request) (w : World)
  : World * Outcome :=
  let '(w, (req, resp)) := OnRequest_DoFunc p req w in
  match resp with
  | Some resp =>
      let '(w, resp) := OnResponse_DoFunc p resp w in (w, Replied resp)
  | None =>
      let w := add_roundTrip req w in
      match RoundTrip req with
      | inl resp =>
          let '(w, resp) := OnResponse_DoFunc p resp w in (w, Replied resp)
      | inr _ => (w, Panicked "nil pointer dereference")
      end
  end.

Definition is_CalledOnResponse (c : HookCall) : bool :=
  match c with CalledOnResponse _ => true | _ => false end.

End Dispatcher.

Arguments mkSpoofed : clear implicits.
Arguments CalledOnRequest {Response}.
Arguments CalledOnResponse {Response}.
Arguments mkProxy {Script}.
Arguments Name {Script}.
Arguments PScript {Script}.
Arguments mkWorld {Response}.
Arguments events {Response}.
Arguments hookCalls {Response}.
Arguments roundTrips {Response}.
Arguments logged {Response}.
Arguments add_event {Response}.
Arguments add_hookCall {Response}.
Arguments add_roundTrip {Response}.
Arguments add_log {Response}.
Arguments debug_line {Script}.
Arguments spoofed {JSResponse}.
Arguments logAction {Script JSResponse Response}.
Arguments OnRequest_DoFunc {Script JSResponse Response}.
Arguments OnResponse_DoFunc {Script JSResponse Response}.
Arguments Replied {Response}.
Arguments Panicked {Response}.
Arguments exchange {Script JSResponse Response}.
Arguments is_CalledOnResponse {Response}.

(** A script to test against: it answers every request with the first
    body and every response with the second, when there is one; a response
    is the request it answers and a body. *)
Definition toy_OnRequest (script : option string * option string)
  (req : Request) : option string := fst script.

Definition toy_OnResponse (script : option string * option string)
  (res : (Request * string)%type) : option string := snd script.

Definition toy_ToResponse (body : string) (req : Request)
  : (Request * string)%type := (req, body).

Definition toy_RoundTrip (req : Request) : (Request * string + error)%type :=
  inl (req, "<html>upstream</html>").

Definition toy_exchange (p : HTTPProxy (option string * option string))
  (req : Request) (w : World (Request * string)%type)
  : (World (Request * string) * Outcome (Request * string))%type :=
  exchange toy_OnRequest toy_OnResponse (fun body => body) toy_ToResponse
           fst toy_RoundTrip p req w.

Definition toy_request : Request :=
  mkRequest "GET" (mkURL "" "test.local" "/index.html") "test.local"
            "10.0.0.2:51234" [].

End Hooks.

(** ** Listener and life cycle *)

Module Lifecycle.

(** Modelled from the spec: the firewall redirection service is another
    package of the repository; the spec gives it as a black box that holds
    the forwarding switch and the redirections in effect. *)
Record Firewall := mkFirewall {
  forwarding : bool;
  redirections : list Redirection
}.

(** A call to something outside the proxy object, in the order made. *)
Inductive Call :=
| FwEnableForwarding (enabled : bool)
| FwEnableRedirection (r : Redirection) (enabled : bool)
| ListenerClose (addr : string)
| ServerShutdown (addr : string) (timeout_seconds : Z).

Section Manager.

(** [*ProxyScript] and [tls.Certificate]. *)
Variable Script : Type.
Variable Certificate : Type.

(** [LoadProxyScript(path, sess)]: both results, as the code assigns them. *)
Variable LoadProxyScript : string -> option error * option Script.

(** Whether the firewall refuses to install ([true]) or remove ([false]) a
    redirection, and with which error. *)
Variable fw_refuses : Firewall -> Redirection -> bool -> option error.

(** [p.sess.Interface.Name()]. *)
Variable Interface_Name : string.

(** [ioutil.ReadFile], its error dropped as the code drops it. *)
Variable ReadFile : string -> list byte.

(** [tls.X509KeyPair], and [x509.ParseCertificate] of the pair's first
    certificate stored into its [Leaf]. *)
Variable X509KeyPair : list byte -> list byte -> Certificate + error.
Variable ParseLeaf : Certificate -> Certificate + error.

(** [p.Server.Shutdown(ctx)] for the server bound to an address, under a
    context that expires after so many seconds. *)
Variable Server_Shutdown : string -> Z -> option error.

(** [HTTPProxy]; [Server] is kept as its [Addr], [sniListener] as the
    address it listens on. *)
Record HTTPProxy := mkProxy {
  Name : string;
  Address : string;
  Server_Addr : string;
  PRedirection : option Redirection;
  PScript : option Script;
  CertFile : string;
  KeyFile : string;
  isTLS : bool;
  isRunning : bool;
  sniListener : option string
}.

(** [NewHTTPProxy], the fields kept here. *)
Definition NewHTTPProxy : HTTPProxy :=
  mkProxy "http.proxy" "" "" None None "" "" false false None.

(** What the life cycle acts on besides the proxy object: the firewall, the
    calls made so far, the CA installed into goproxy's package variables
    ([GoproxyCa] and the four connect actions) and the log. *)
Record World := mkWorld {
  fw : Firewall;
  calls : list Call;
  goproxyCa : option Certificate;
  logged : list LogEntry
}.

Definition called (c : Call) (w : World) : World :=
  mkWorld (fw w) (calls w ++ [c]) (goproxyCa w) (logged w).

Definition add_log (line : LogEntry) (w : World) : World :=
  mkWorld (fw w) (calls w) (goproxyCa w) (logged w ++ [line]).

(** Modelled from the spec: [Firewall.IsForwardingEnabled]. *)
Definition IsForwardingEnabled (w : World) : bool := forwarding (fw w).

(** Modelled from the spec: [Firewall.EnableForwarding(enabled)]. *)
Definition EnableForwarding (enabled : bool) (w : World) : World :=
  let w := called (FwEnableForwarding enabled) w in
  mkWorld (mkFirewall enabled (redirections (fw w))) (calls w) (goproxyCa w)
          (logged w).

(** Modelled from the spec: [Firewall.EnableRedirection(r, enabled)]
    installs or removes the rule, or fails and changes nothing. *)
Definition EnableRedirection (r : Redirection) (enabled : bool) (w : World)
  : World * option error :=
  let w := called (FwEnableRedirection r enabled) w in
  match fw_refuses (fw w) r enabled with
  | Some err => (w, Some err)
  | None =>
      let others := List.filter (fun r' => negb (bool_decide (r' = r)))
                                (redirections (fw w)) in
      (mkWorld (mkFirewall (forwarding (fw w))
                           (if enabled then r :: others else others))
               (calls w) (goproxyCa w) (logged w), None)
  end.

(** [HTTPProxy.Configure]. *)
Definition Configure (address : string) (proxyPort httpPort : Z)
  (scriptPath : string) (p : HTTPProxy) (w : World)
  : HTTPProxy * World * option error :=
  let p := mkProxy (Name p) address (Server_Addr p) (PRedirection p) (PScript p)
                   (CertFile p) (KeyFile p) (isTLS p) (isRunning p)
                   (sniListener p) in
  let loaded :=
    if String.eqb scriptPath "" then (None, PScript p)
    else LoadProxyScript scriptPath in
  let p := mkProxy (Name p) (Address p) (Server_Addr p) (PRedirection p)
                   (snd loaded) (CertFile p) (KeyFile p) (isTLS p)
                   (isRunning p) (sniListener p) in
  match fst loaded with
  | Some err => (p, w, Some err)
  | None =>
      let w := if String.eqb scriptPath "" then w
               else add_log (LDebug, "Proxy script %s loaded.",
                             [AStr scriptPath]) w in
      let p := mkProxy (Name p) (Address p)
                       (Address p ++ ":" ++ itoa proxyPort)
                       (PRedirection p) (PScript p) (CertFile p) (KeyFile p)
                       (isTLS p) (isRunning p) (sniListener p) in
      let w := if IsForwardingEnabled w then w
               else EnableForwarding true
                      (add_log (LInfo, "Enabling forwarding.", []) w) in
      let r := mkRedirection Interface_Name "TCP" httpPort (Address p)
                             proxyPort in
      let p := mkProxy (Name p) (Address p) (Server_Addr p) (Some r)
                       (PScript p) (CertFile p) (KeyFile p) (isTLS p)
                       (isRunning p) (sniListener p) in
      match EnableRedirection r true w with
      | (w, Some err) => (p, w, Some err)
      | (w, None) =>
          (p, add_log (LDebug, "Applied redirection %s", [ARedirection r]) w,
           None)
      end
  end.

(** [HTTPProxy.ConfigureTLS]. *)
Definition ConfigureTLS (address : string) (proxyPort httpPort : Z)
  (scriptPath certFile keyFile : string) (p : HTTPProxy) (w : World)
  : HTTPProxy * World * option error :=
  match Configure address proxyPort httpPort scriptPath p w with
  | (p, w, Some err) => (p, w, Some err)
  | (p, w, None) =>
      let p := mkProxy "https.proxy" (Address p) (Server_Addr p)
                       (PRedirection p) (PScript p) certFile keyFile true
                       (isRunning p) (sniListener p) in
      let rawCert := ReadFile (CertFile p) in
      let rawKey := ReadFile (KeyFile p) in
      match X509KeyPair rawCert rawKey with
      | inr err => (p, w, Some err)
      | inl ourCa =>
          match ParseLeaf ourCa with
          | inr err => (p, w, Some err)
          | inl ourCa =>
              (p, mkWorld (fw w) (calls w) (Some ourCa) (logged w), None)
          end
      end
  end.

(** How [Stop] ends: it returns its error result, or panics. *)
Inductive Ending :=
| Returns (err : option error)
| Panics (why : string).

(** Lines 338-346 of [Stop]: shutting the listener down. *)
Definition shutdown_listener (p : HTTPProxy) (w : World)
  : HTTPProxy * World * Ending :=
  if isTLS p
  then
    let p := mkProxy (Name p) (Address p) (Server_Addr p) (PRedirection p)
                     (PScript p) (CertFile p) (KeyFile p) (isTLS p) false
                     (sniListener p) in
    match sniListener p with
    | Some l => (p, called (ListenerClose l) w, Returns None)
    | None => (p, w, Panics "nil pointer dereference")
    end
  else
    (p, called (ServerShutdown (Server_Addr p) 5) w,
     Returns (Server_Shutdown (Server_Addr p) 5)).

(** [HTTPProxy.Stop]. *)
Definition Stop (p : HTTPProxy) (w : World) : HTTPProxy * World * Ending :=
  match PRedirection p with
  | Some r =>
      let w := add_log (LDebug, "Disabling redirection %s", [ARedirection r]) w in
      match EnableRedirection r false w with
      | (w, Some err) => (p, w, Returns (Some err))
      | (w, None) =>
          let p := mkProxy (Name p) (Address p) (Server_Addr p) None
                           (PScript p) (CertFile p) (KeyFile p) (isTLS p)
                           (isRunning p) (sniListener p) in
          shutdown_listener p w
      end
  | None => shutdown_listener p w
  end.

Definition is_shutdown (c : Call) : bool :=
  match c with
  | ListenerClose _ | ServerShutdown _ _ => true
  | _ => false
  end.

End Manager.

Arguments mkProxy {Script}.
Arguments Name {Script}.
Arguments Address {Script}.
Arguments Server_Addr {Script}.
Arguments PRedirection {Script}.
Arguments PScript {Script}.
Arguments CertFile {Script}.
Arguments KeyFile {Script}.
Arguments isTLS {Script}.
Arguments isRunning {Script}.
Arguments sniListener {Script}.
Arguments mkWorld {Certificate}.
Arguments fw {Certificate}.
Arguments calls {Certificate}.
Arguments goproxyCa {Certificate}.
Arguments logged {Certificate}.
Arguments called {Certificate}.
Arguments IsForwardingEnabled {Certificate}.
Arguments EnableForwarding {Certificate}.
Arguments EnableRedirection {Certificate}.
Arguments Configure {Script Certificate}.
Arguments ConfigureTLS {Script Certificate}.
Arguments shutdown_listener {Script Certificate}.
Arguments Stop {Script Certificate}.
Arguments NewHTTPProxy {Script}.
Arguments add_log {Certificate}.

(** Collaborators to test against: a script is the path it was loaded
    from, and one path is missing; a CA is its two files, which must both
    hold something; the firewall refuses nothing, or refuses to remove. *)
Definition toy_LoadProxyScript (path : string) : option error * option string :=
  if String.eqb path "missing.js"
  then (Some "open missing.js: no such file or directory", None)
  else (None, Some path).

Definition toy_ReadFile (path : string) : list byte :=
  if String.eqb path "ca.pem" then list_byte_of_string "CERTIFICATE"
  else if String.eqb path "ca.key" then list_byte_of_string "PRIVATE KEY"
  else [].

Definition toy_X509KeyPair (cert key : list byte)
  : (list byte * list byte + error)%type :=
  match cert, key with
  | _ :: _, _ :: _ => inl (cert, key)
  | _, _ => inr "tls: failed to find any PEM data in certificate input"
  end.

Definition toy_ParseLeaf (ca : (list byte * list byte)%type)
  : (list byte * list byte + error)%type := inl ca.

Definition refuse_nothing (f : Firewall) (r : Redirection) (enabled : bool)
  : option error := None.

Definition refuse_removal (f : Firewall) (r : Redirection) (enabled : bool)
  : option error :=
  if enabled then None else Some "iptables: permission denied".

Definition toy_Shutdown (addr : string) (timeout_seconds : Z) : option error :=
  None.

(** A firewall whose answer depends on its state: it refuses to install a
    redirection while it already holds one, and otherwise refuses
    nothing. *)
Definition refuse_second_rule (f : Firewall) (r : Redirection) (enabled : bool)
  : option error :=
  match enabled, redirections f with
  | true, _ :: _ => Some "iptables: chain is full"
  | _, _ => None
  end.

Definition quiet : World (list byte * list byte) :=
  mkWorld (mkFirewall false []) [] None [].

Definition toy_Configure (refuses : Firewall -> Redirection -> bool -> option error) :=
  @Configure string (list byte * list byte) toy_LoadProxyScript refuses "eth0".

Definition toy_ConfigureTLS (refuses : Firewall -> Redirection -> bool -> option error) :=
  ConfigureTLS toy_LoadProxyScript refuses "eth0" toy_ReadFile toy_X509KeyPair
               toy_ParseLeaf.

Definition toy_Stop (refuses : Firewall -> Redirection -> bool -> option error) :=
  @Stop string (list byte * list byte) refuses toy_Shutdown.

End Lifecycle.

(** ** The rest of the proxy *)

(** The hosts [doProxy] lets through: not empty, and beginning with
    neither entry of the blacklist. *)
Definition eligible_host (host : string) : Prop :=
  host <> "" /\
  ~ (exists rest, host = "localhost" ++ rest) /\
  ~ (exists rest, host = "127.0.0.1" ++ rest).

(** The handler installed as [p.Proxy.NonproxyHandler] (lines 60-65): the
    lines [doProxy] logs, and the request handed to [p.Proxy.ServeHTTP],
    if any, with [req.URL.Host] set to [req.Host]. *)
Definition NonproxyHandler (req : Request) : list LogEntry * option Request :=
  let '(eligible, lines) := HostFilter.doProxy req in
  if eligible
  then (lines,
        Some (mkRequest (Method req)
                        (mkURL (URL_Opaque (ReqURL req)) (Host req)
                               (URL_Path (ReqURL req)))
                        (Host req) (RemoteAddr req) (Header req)))
  else (lines, None).

Module Sequences.
Section Calls.

Variable Certificate : Type.
Variable SignCertificateForHost :
  nat -> Certificate -> string -> Z -> Certificate + error.

(** The closure of [TLSConfigFromCA(ca)] called for one host after another,
    each call returning before the next begins. *)
Fixpoint call_each (ca : Certificate) (hosts : list string)
  (st : CertCache.State Certificate)
  : CertCache.State Certificate * list (CertCache.Config Certificate + error) :=
  match hosts with
  | [] => (st, [])
  | host :: rest =>
      let '(st, result) :=
        CertCache.TLSConfigFromCA SignCertificateForHost ca host st in
      let '(st, results) := call_each ca rest st in
      (st, result :: results)
  end.

End Calls.

Section Writes.

Variable Conn : Type.
Variable Conn_Write : Conn -> list byte -> Conn * (Z * option error).

(** [dumbResponseWriter.Write] called with one buffer after another. *)
Fixpoint Write_each (dumb : Conn) (bufs : list (list byte))
  : Conn * list (Z * option error) :=
  match bufs with
  | [] => (dumb, [])
  | buf :: rest =>
      let '(dumb, result) :=
        Adapter.dumbResponseWriter_Write Conn_Write dumb buf in
      let '(dumb, results) := Write_each dumb rest in
      (dumb, result :: results)
  end.

(** The raw connection's own [Write] called with one buffer after
    another. *)
Fixpoint Conn_Write_each (c : Conn) (bufs : list (list byte)) : Conn :=
  match bufs with
  | [] => c
  | buf :: rest => Conn_Write_each (fst (Conn_Write c buf)) rest
  end.

End Writes.

Arguments call_each {Certificate}.
Arguments Write_each {Conn}.
Arguments Conn_Write_each {Conn}.

End Sequences.

Module Workers.
Section Accepting.

Variable Script : Type.
Variable Conn : Type.
Variable TLSConn : Type.
Variable vhost_TLS : Conn -> TLSConn * option error.
Variable TLSConn_Host : TLSConn -> string.
Variable Conn_RemoteAddr : Conn -> string.

(** The error of [net.Listen("tcp", addr)], [None] when the listener is
    bound. *)
Variable net_Listen : string -> option error.

(** Lines 268-273 of [httpsWorker]: binding the accept listener.  The
    listener is assigned before the error is looked at. *)
Definition httpsWorker_listen (p : Lifecycle.HTTPProxy Script)
  : Lifecycle.HTTPProxy Script * option error :=
  match net_Listen (Lifecycle.Server_Addr p) with
  | Some err =>
      (Lifecycle.mkProxy (Lifecycle.Name p) (Lifecycle.Address p)
         (Lifecycle.Server_Addr p) (Lifecycle.PRedirection p)
         (Lifecycle.PScript p) (Lifecycle.CertFile p) (Lifecycle.KeyFile p)
         (Lifecycle.isTLS p) (Lifecycle.isRunning p) None,
       Some err)
  | None =>
      (Lifecycle.mkProxy (Lifecycle.Name p) (Lifecycle.Address p)
         (Lifecycle.Server_Addr p) (Lifecycle.PRedirection p)
         (Lifecycle.PScript p) (Lifecycle.CertFile p) (Lifecycle.KeyFile p)
         (Lifecycle.isTLS p) true (Some (Lifecycle.Server_Addr p)),
       None)
  end.

(** Lines 274-308 of [httpsWorker]: the accept loop over the outcomes of
    [p.sniListener.Accept()] seen while the proxy is running.  It gives the
    warnings the loop itself logs and, for every goroutine it starts, what
    that goroutine does. *)
Fixpoint accept_loop (accepts : list (Conn + error))
  : list LogEntry * list (list (SNI.Effect Conn TLSConn)) :=
  match accepts with
  | [] => ([], [])
  | inr err :: rest =>
      let '(warnings, goroutines) := accept_loop rest in
      ((LWarning, "Error accepting connection: %s.", [AErr err]) :: warnings,
       goroutines)
  | inl c :: rest =>
      let '(warnings, goroutines) := accept_loop rest in
      (warnings,
       SNI.httpsWorker_conn vhost_TLS TLSConn_Host Conn_RemoteAddr c
         :: goroutines)
  end.

(** The connections among the outcomes of [Accept]. *)
Fixpoint accepted (accepts : list (Conn + error)) : list Conn :=
  match accepts with
  | [] => []
  | inl c :: rest => c :: accepted rest
  | inr _ :: rest => accepted rest
  end.

(** The errors among the outcomes of [Accept]. *)
Fixpoint refused (accepts : list (Conn + error)) : list error :=
  match accepts with
  | [] => []
  | inl _ :: rest => refused rest
  | inr err :: rest => err :: refused rest
  end.

End Accepting.

Arguments httpsWorker_listen {Script}.
Arguments accept_loop {Conn TLSConn}.
Arguments accepted {Conn}.
Arguments refused {Conn}.

End Workers.

(** * Properties *)

(** ** Strings *)

Lemma prefix_append (p rest : string) : String.prefix p (p ++ rest) = true.
Proof.
  induction p as [|a p IH]; unfold String.append; fold String.append.
  - now destruct rest.
  - simpl. destruct (ascii_dec a a) as [_|Hne]; [exact IH | congruence].
Qed.

Lemma Cut_without_sep (sep : ascii) (s : string) :
  ~ In sep (list_ascii_of_string s) -> Cut sep s = None.
Proof.
  induction s as [|a s IH]; simpl; intros Hnot; [reflexivity|].
  destruct (Ascii.eqb_spec a sep) as [->|Hne].
  - exfalso. apply Hnot. now left.
  - rewrite IH; [reflexivity|]. intros Hin. apply Hnot. now right.
Qed.

Lemma Cut_at_first_sep (sep : ascii) (before after : string) :
  ~ In sep (list_ascii_of_string before) ->
  Cut sep (before ++ String sep after) = Some (before, after).
Proof.
  induction before as [|a s IH]; unfold String.append; fold String.append;
    simpl; intros Hnot.
  - now rewrite Ascii.eqb_refl.
  - destruct (Ascii.eqb_spec a sep) as [->|Hne].
    + exfalso. apply Hnot. now left.
    + rewrite IH; [reflexivity|]. intros Hin. apply Hnot. now right.
Qed.

(** ** Host filter *)

(** C4: [doProxy] answers [false] for the empty host and for every host
    that begins with [localhost] or [127.0.0.1] (so for ["localhost"] and
    ["127.0.0.1:8080"]), answers [true] for ["example.com"], and its answer
    depends on nothing but the request's host. *)
Theorem doProxy_host_filter :
  (forall req, Host req = "" -> fst (HostFilter.doProxy req) = false) /\
  (forall req rest,
      Host req = "localhost" ++ rest \/ Host req = "127.0.0.1" ++ rest ->
      fst (HostFilter.doProxy req) = false) /\
  (forall req,
      Host req = "localhost" \/ Host req = "127.0.0.1:8080" ->
      fst (HostFilter.doProxy req) = false) /\
  (forall req, Host req = "example.com" -> fst (HostFilter.doProxy req) = true) /\
  (forall req req',
      Host req = Host req' ->
      fst (HostFilter.doProxy req) = fst (HostFilter.doProxy req')).
Proof.
  assert (Hpre : forall req rest,
             Host req = "localhost" ++ rest \/ Host req = "127.0.0.1" ++ rest ->
             fst (HostFilter.doProxy req) = false).
  { intros req rest Hhost. unfold HostFilter.doProxy.
    destruct (String.eqb (Host req) ""); [reflexivity|].
    unfold HostFilter.blacklist, HostFilter.scan_blacklist, HasPrefix.
    destruct Hhost as [-> | ->].
    - now rewrite prefix_append.
    - rewrite prefix_append.
      now destruct (String.prefix "localhost" ("127.0.0.1" ++ rest)). }
  repeat split.
  - intros req Hhost. unfold HostFilter.doProxy. now rewrite Hhost.
  - exact Hpre.
  - intros req [Hhost | Hhost].
    + apply (Hpre req ""). now left.
    + apply (Hpre req ":8080"). now right.
  - intros req Hhost. unfold HostFilter.doProxy. now rewrite Hhost.
  - intros req req' Hhost. unfold HostFilter.doProxy. rewrite Hhost.
    destruct (String.eqb (Host req') ""); [reflexivity|].
    now destruct (HostFilter.scan_blacklist (Host req') HostFilter.blacklist).
Qed.

Lemma doProxy_host_filter_witness :
  fst (HostFilter.doProxy
         (mkRequest "GET" (mkURL "" "" "/") "127.0.0.1:8080" "10.0.0.2:51234" []))
  = false.
Proof.
  apply (proj1 (proj2 (proj2 doProxy_host_filter))).
  right. reflexivity.
Defined.

(** ** Certificate cache and forger: one call after another *)

Section ForgerFacts.

Variable Certificate : Type.

Lemma hostPort_without_colon (host : string) :
  ~ In ":"%char (list_ascii_of_string host) ->
  CertCache.hostPort host = (host, 443).
Proof.
  intros Hnot. unfold CertCache.hostPort, SplitN_2.
  now rewrite (Cut_without_sep _ _ Hnot).
Qed.

Lemma hostPort_with_suffix (hostname suffix : string) :
  ~ In ":"%char (list_ascii_of_string hostname) ->
  CertCache.hostPort (hostname ++ ":" ++ suffix) =
    (hostname, match Atoi suffix with Some port => port | None => 443 end).
Proof.
  intros Hnot. unfold CertCache.hostPort, SplitN_2.
  change (":" ++ suffix) with (String ":" suffix).
  now rewrite (Cut_at_first_sep _ _ _ Hnot).
Qed.

(** C10: a host string with no colon, or whose text after the first colon
    [strconv.Atoi] rejects, gets port 443; ["example.com"],
    ["example.com:443"] and ["example.com:abc"] all give the key
    [("example.com", 443)], and that key is the one the cache is asked for
    and the signer is called with. *)
Theorem hostPort_defaults_to_443
    (SignCertificateForHost : nat -> Certificate -> string -> Z -> Certificate + error)
    (ca : Certificate) (host : string) (st : CertCache.State Certificate) :
  (~ In ":"%char (list_ascii_of_string host) ->
   CertCache.hostPort host = (host, 443)) /\
  (forall hostname suffix,
      host = hostname ++ ":" ++ suffix ->
      ~ In ":"%char (list_ascii_of_string hostname) ->
      Atoi suffix = None ->
      CertCache.hostPort host = (hostname, 443)) /\
  CertCache.hostPort "example.com" = ("example.com", 443) /\
  CertCache.hostPort "example.com:443" = ("example.com", 443) /\
  CertCache.hostPort "example.com:abc" = ("example.com", 443) /\
  CertCache.TLSConfigFromCA SignCertificateForHost ca host st =
    CertCache.GetOrCreate SignCertificateForHost ca
      (fst (CertCache.hostPort host)) (snd (CertCache.hostPort host)) st.
Proof.
  split; [apply hostPort_without_colon|].
  split.
  { intros hostname suffix -> Hnot Hatoi.
    rewrite (hostPort_with_suffix _ _ Hnot). now rewrite Hatoi. }
  repeat split.
Qed.

(** A call that finds its key cached returns the cached certificate and
    leaves everything as it was, whatever the signer would do. *)
Lemma GetOrCreate_hit
    (sign : nat -> Certificate -> string -> Z -> Certificate + error)
    (ca : Certificate) (hostname : string) (port : Z)
    (st : CertCache.State Certificate) (cert : Certificate) :
  CertCache.getCachedCert hostname port st = Some cert ->
  CertCache.GetOrCreate sign ca hostname port st =
    (st, inl (CertCache.config_of cert)).
Proof. intros Hhit. unfold CertCache.GetOrCreate. now rewrite Hhit. Qed.

(** A call that returns a configuration leaves its certificate in the
    cache. *)
Lemma GetOrCreate_caches
    (sign : nat -> Certificate -> string -> Z -> Certificate + error)
    (ca : Certificate) (hostname : string) (port : Z)
    (st st1 : CertCache.State Certificate) (cfg : CertCache.Config Certificate) :
  CertCache.GetOrCreate sign ca hostname port st = (st1, inl cfg) ->
  exists cert,
    cfg = CertCache.config_of cert /\
    CertCache.getCachedCert hostname port st1 = Some cert.
Proof.
  unfold CertCache.GetOrCreate.
  destruct (CertCache.getCachedCert hostname port st) as [cert|] eqn:Hget.
  - intros [= <- <-]. now exists cert.
  - unfold CertCache.forge, CertCache.sign.
    destruct (sign _ ca hostname port) as [cert|err]; intros [= <- <-].
    exists cert. split; [reflexivity|].
    unfold CertCache.getCachedCert, CertCache.setCachedCert. simpl.
    apply lookup_insert_eq.
Qed.

(** C1: a call that finds its (hostname, port) cached returns a
    configuration whose one certificate is the stored certificate, and
    changes nothing, the record of signing operations included; so after a
    call that returned a certificate, a second call for the same
    (hostname, port) returns the identical certificate, the one now held in
    the cache, changes neither the cache nor the signing record, and does
    so whatever signer it is given. *)
Theorem TLSConfigFromCA_second_call_identical
    (sign sign' : nat -> Certificate -> string -> Z -> Certificate + error)
    (ca : Certificate) (host : string) (st : CertCache.State Certificate) :
  (forall cert,
      CertCache.getCachedCert (fst (CertCache.hostPort host))
                              (snd (CertCache.hostPort host)) st = Some cert ->
      CertCache.TLSConfigFromCA sign ca host st =
        (st, inl (CertCache.mkConfig true [cert]))) /\
  (forall host' st1 cfg,
      CertCache.hostPort host' = CertCache.hostPort host ->
      CertCache.TLSConfigFromCA sign ca host st = (st1, inl cfg) ->
      (exists cert,
          CertCache.getCachedCert (fst (CertCache.hostPort host))
                                  (snd (CertCache.hostPort host)) st1 = Some cert /\
          CertCache.Certificates cfg = [cert] /\
          CertCache.InsecureSkipVerify cfg = true /\
          cfg = CertCache.mkConfig true [cert]) /\
      CertCache.TLSConfigFromCA sign' ca host' st1 = (st1, inl cfg)).
Proof.
  unfold CertCache.TLSConfigFromCA. split.
  - intros cert Hhit.
    destruct (CertCache.hostPort host) as [hostname port]. simpl in *.
    exact (GetOrCreate_hit sign ca hostname port st cert Hhit).
  - intros host' st1 cfg Hkey Hfirst. rewrite Hkey.
    destruct (CertCache.hostPort host) as [hostname port]. simpl.
    destruct (GetOrCreate_caches _ _ _ _ _ _ _ Hfirst) as (cert & -> & Hget).
    split; [exists cert; now repeat split|].
    now apply GetOrCreate_hit.
Qed.

(** A miss followed by a failing signer: the error, one signing recorded,
    two log lines, the cache untouched. *)
Lemma GetOrCreate_sign_failure
    (sign : nat -> Certificate -> string -> Z -> Certificate + error)
    (ca : Certificate) (hostname : string) (port : Z)
    (st : CertCache.State Certificate) (err : error) :
  CertCache.getCachedCert hostname port st = None ->
  sign (List.length (CertCache.signings st)) ca hostname port = inr err ->
  CertCache.GetOrCreate sign ca hostname port st =
    (CertCache.mkState
       (CertCache.certCache st)
       (CertCache.signings st ++ [(hostname, port)])
       (CertCache.logged st ++
          [(LInfo, "Creating spoofed certificate for %s:%d",
            [AStyled "yellow" hostname; AInt port]);
           (LWarning, "Cannot sign host certificate with provided CA: %s",
            [AErr err])]),
     inr err).
Proof.
  intros Hmiss Hsign.
  unfold CertCache.GetOrCreate, CertCache.forge, CertCache.sign.
  rewrite Hmiss. simpl. rewrite Hsign.
  unfold CertCache.log_line. simpl. now rewrite <- app_assoc.
Qed.

(** A miss always calls the signer, once. *)
Lemma GetOrCreate_miss_signs
    (sign : nat -> Certificate -> string -> Z -> Certificate + error)
    (ca : Certificate) (hostname : string) (port : Z)
    (st : CertCache.State Certificate) :
  CertCache.getCachedCert hostname port st = None ->
  CertCache.signings (fst (CertCache.GetOrCreate sign ca hostname port st)) =
    (CertCache.signings st ++ [(hostname, port)])%list.
Proof.
  intros Hmiss.
  unfold CertCache.GetOrCreate, CertCache.forge, CertCache.sign.
  rewrite Hmiss. simpl.
  now destruct (sign _ ca hostname port).
Qed.

(** C2: when the key is not cached and the signer fails, the call returns
    the signer's error and the cache is what it was, the key still absent;
    the signer has been called once, and the next call for the key calls
    it again. *)
Theorem TLSConfigFromCA_sign_failure_not_cached
    (sign sign' : nat -> Certificate -> string -> Z -> Certificate + error)
    (ca : Certificate) (host : string)
    (st : CertCache.State Certificate) (err : error) :
  let hostname := fst (CertCache.hostPort host) in
  let port := snd (CertCache.hostPort host) in
  CertCache.getCachedCert hostname port st = None ->
  sign (List.length (CertCache.signings st)) ca hostname port = inr err ->
  let st1 := fst (CertCache.TLSConfigFromCA sign ca host st) in
  snd (CertCache.TLSConfigFromCA sign ca host st) = inr err /\
  CertCache.certCache st1 = CertCache.certCache st /\
  CertCache.getCachedCert hostname port st1 = None /\
  CertCache.signings st1 = (CertCache.signings st ++ [(hostname, port)])%list /\
  CertCache.signings (fst (CertCache.TLSConfigFromCA sign' ca host st1)) =
    (CertCache.signings st ++ [(hostname, port); (hostname, port)])%list.
Proof.
  unfold CertCache.TLSConfigFromCA.
  destruct (CertCache.hostPort host) as [hostname port]. simpl.
  intros Hmiss Hsign.
  rewrite (GetOrCreate_sign_failure _ _ _ _ _ _ Hmiss Hsign). simpl.
  repeat split; try assumption.
  rewrite GetOrCreate_miss_signs by exact Hmiss.
  simpl. now rewrite <- app_assoc.
Qed.

End ForgerFacts.

Lemma hostPort_defaults_to_443_witness :
  CertCache.hostPort "[::1]:8443" = ("[", 443).
Proof.
  apply (proj1 (proj2 (hostPort_defaults_to_443
                         (string * nat) CertCache.toy_sign CertCache.toy_ca
                         "[::1]:8443" CertCache.fresh))
           "[" ":1]:8443").
  - reflexivity.
  - simpl. intros [Hcolon | []]. discriminate Hcolon.
  - reflexivity.
Defined.

Lemma TLSConfigFromCA_second_call_identical_witness :
  let first :=
    CertCache.TLSConfigFromCA CertCache.toy_sign CertCache.toy_ca
                              "example.com" CertCache.fresh in
  CertCache.TLSConfigFromCA (fun _ _ _ _ => inr "signer called")
                            CertCache.toy_ca "example.com:443" (fst first) =
    (fst first, inl (CertCache.mkConfig true [("example.com", 0%nat)])).
Proof.
  apply (proj2 (TLSConfigFromCA_second_call_identical
                  (string * nat) CertCache.toy_sign
                  (fun _ _ _ _ => inr "signer called")
                  CertCache.toy_ca "example.com" CertCache.fresh)
           "example.com:443").
  - reflexivity.
  - reflexivity.
Defined.

Lemma TLSConfigFromCA_sign_failure_not_cached_witness :
  snd (CertCache.TLSConfigFromCA CertCache.toy_sign CertCache.toy_ca
                                 ":443" CertCache.fresh)
  = inr "x509: empty subject".
Proof.
  apply (TLSConfigFromCA_sign_failure_not_cached
           (string * nat) CertCache.toy_sign CertCache.toy_sign
           CertCache.toy_ca ":443" CertCache.fresh "x509: empty subject").
  - reflexivity.
  - reflexivity.
Defined.

(** ** CONNECT adapter *)

Lemma bytes_Equal_eq (a b : list byte) : bytes_Equal a b = true <-> a = b.
Proof.
  revert b. induction a as [|x a IH]; intros [|y b]; simpl; try easy.
  rewrite andb_true_iff, IH. split.
  - intros [Hxy ->]. f_equal. now apply Byte.byte_dec_bl.
  - intros [= -> ->]. split; [|reflexivity]. now apply Byte.byte_dec_lb.
Qed.

Lemma Pipe_Write_io_Writer : Adapter.io_Writer Adapter.Pipe_Write.
Proof.
  intros c buf. unfold Adapter.Pipe_Write.
  destruct (Adapter.connected c); split; try lia; easy.
Qed.

Section AdapterFacts.

Variable Conn : Type.
Variable Conn_Write : Conn -> list byte -> Conn * (Z * option error).

(** C6, as the code has it: written through the adapter, the literal
    ["HTTP/1.0 200 OK\r\n\r\n"] never reaches the raw connection, which is
    left as it was, and the adapter reports the whole buffer written; any
    other buffer is handed unchanged to the raw connection's [Write], whose
    count and error the adapter reports as they are, so the count is the
    buffer's length whenever that [Write] keeps the [io.Writer] contract
    and reports no error. *)
Theorem dumbResponseWriter_Write_passes_through (dumb : Conn) (buf : list byte) :
  (buf = Adapter.okConnect ->
   Adapter.dumbResponseWriter_Write Conn_Write dumb buf =
     (dumb, (Z.of_nat (List.length buf), None))) /\
  (buf <> Adapter.okConnect ->
   Adapter.dumbResponseWriter_Write Conn_Write dumb buf = Conn_Write dumb buf) /\
  (buf <> Adapter.okConnect ->
   Adapter.io_Writer Conn_Write ->
   snd (snd (Conn_Write dumb buf)) = None ->
   fst (snd (Adapter.dumbResponseWriter_Write Conn_Write dumb buf)) =
     Z.of_nat (List.length buf)).
Proof.
  unfold Adapter.dumbResponseWriter_Write.
  destruct (bytes_Equal buf Adapter.okConnect) eqn:Heq.
  - apply bytes_Equal_eq in Heq. split; [|split]; intros; congruence.
  - split; [|split]; intros Hne; try reflexivity.
    { apply bytes_Equal_eq in Hne. congruence. }
    intros Hcontract Hok. specialize (Hcontract dumb buf).
    destruct (Conn_Write dumb buf) as [c [n err]]. simpl in *.
    destruct Hcontract as [Hrange Hshort].
    destruct (Z.eq_dec n (Z.of_nat (List.length buf))) as [|Hlt]; [assumption|].
    exfalso. apply Hshort; [lia | assumption].
Qed.

End AdapterFacts.

Lemma dumbResponseWriter_Write_passes_through_witness :
  Adapter.dumbResponseWriter_Write Adapter.Pipe_Write (Adapter.mkPipe [] true)
    (list_byte_of_string "HTTP/1.1 200 OK")
  = (Adapter.mkPipe (list_byte_of_string "HTTP/1.1 200 OK") true, (15, None)).
Proof.
  rewrite (proj1 (proj2 (dumbResponseWriter_Write_passes_through
                           Adapter.Pipe Adapter.Pipe_Write
                           (Adapter.mkPipe [] true)
                           (list_byte_of_string "HTTP/1.1 200 OK")))).
  - reflexivity.
  - discriminate.
Defined.

(** C6 as stated fails: on a raw connection whose peer is gone, a buffer
    other than the handshake literal is passed on, and the count reported
    is the raw connection's 0, not the buffer's length. *)
Lemma dumbResponseWriter_Write_short_count :
  list_byte_of_string "abc" <> Adapter.okConnect /\
  fst (snd (Adapter.dumbResponseWriter_Write Adapter.Pipe_Write
              (Adapter.mkPipe [] false) (list_byte_of_string "abc")))
  <> Z.of_nat (List.length (list_byte_of_string "abc")).
Proof. split; discriminate. Qed.

(** ** SNI sniffer and CONNECT bridge *)

Lemma IndexRune_without (s : string) (r : ascii) :
  ~ In r (list_ascii_of_string s) -> IndexRune s r = None.
Proof.
  induction s as [|a s IH]; simpl; intros Hnot; [reflexivity|].
  destruct (Ascii.eqb_spec a r) as [->|Hne].
  - exfalso. apply Hnot. now left.
  - rewrite IH; [reflexivity|]. intros Hin. apply Hnot. now right.
Qed.

Lemma JoinHostPort_plain (host port : string) :
  ~ In ":"%char (list_ascii_of_string host) ->
  JoinHostPort host port = host ++ ":" ++ port.
Proof. intros Hnot. unfold JoinHostPort. now rewrite IndexRune_without. Qed.

Section BridgeFacts.

Variable Conn : Type.
Variable TLSConn : Type.
Variable vhost_TLS : Conn -> TLSConn * option error.
Variable TLSConn_Host : TLSConn -> string.
Variable Conn_RemoteAddr : Conn -> string.

(** C5, as the code has it: when reading the SNI fails or the server name
    is empty, the goroutine logs one warning and returns; it hands nothing
    to the proxy core and does not close the connection.  When the
    ClientHello carries the name [h], it hands the proxy core's [ServeHTTP]
    a request with method CONNECT, host [h] and URL host
    [net.JoinHostPort(h, "443")], which is [h:443] for a name without a
    colon. *)
Theorem httpsWorker_conn_bridges (c : Conn) :
  let run := SNI.httpsWorker_conn vhost_TLS TLSConn_Host Conn_RemoteAddr c in
  let tlsConn := fst (vhost_TLS c) in
  let h := TLSConn_Host tlsConn in
  (snd (vhost_TLS c) <> None \/ h = "" ->
   (exists fmt args, run = [SNI.Log (LWarning, fmt, args)]) /\
   existsb SNI.is_ServeHTTP run = false /\
   existsb SNI.is_Close run = false) /\
  (snd (vhost_TLS c) = None -> h <> "" ->
   let req := SNI.connect_request h in
   (exists line, run = [SNI.Log line; SNI.ServeHTTP tlsConn req]) /\
   Method req = "CONNECT" /\
   Host req = h /\
   URL_Opaque (ReqURL req) = h /\
   URL_Host (ReqURL req) = JoinHostPort h "443" /\
   (~ In ":"%char (list_ascii_of_string h) ->
    URL_Host (ReqURL req) = h ++ ":443")).
Proof.
  unfold SNI.httpsWorker_conn.
  destruct (vhost_TLS c) as [tlsConn [err|]]; simpl.
  - split.
    + intros _. split; [|split]; try reflexivity. now eexists _, _.
    + intros [=].
  - destruct (String.eqb_spec (TLSConn_Host tlsConn) "") as [Hempty|Hname].
    + split.
      * intros _. split; [|split]; try reflexivity. now eexists _, _.
      * congruence.
    + split.
      * intros [Hfail | Hempty]; congruence.
      * intros _ _. split; [now eexists|].
        simpl. repeat split. intros Hnot. now apply JoinHostPort_plain.
Qed.

End BridgeFacts.

Lemma httpsWorker_conn_bridges_witness :
  exists line,
    SNI.httpsWorker_conn SNI.toy_TLS (fun name => name)
      (fun _ => "10.0.0.2:51234")
      ([x16; x03; x01]%byte ++ list_byte_of_string "example.com")%list
    = [SNI.Log line;
       SNI.ServeHTTP "example.com"
         (mkRequest "CONNECT" (mkURL "example.com" "example.com:443" "")
                    "example.com" "" [])].
Proof.
  destruct (proj2 (httpsWorker_conn_bridges
                     (list byte) string SNI.toy_TLS (fun name => name)
                     (fun _ => "10.0.0.2:51234")
                     ([x16; x03; x01]%byte ++ list_byte_of_string "example.com")%list)
              eq_refl ltac:(discriminate))
    as ((line & Hrun) & _).
  exists line. exact Hrun.
Defined.

(** C5 as stated fails: bytes that are no TLS handshake make the read of
    the SNI fail, and the goroutine returns after its warning without
    closing the connection. *)
Lemma httpsWorker_conn_leaves_open :
  let c := list_byte_of_string "GET / HTTP/1.1" in
  snd (SNI.toy_TLS c) <> None /\
  SNI.httpsWorker_conn SNI.toy_TLS (fun name => name)
    (fun _ => "10.0.0.2:51234") c
  = [SNI.Log (LWarning, "Error reading SNI: %s.", [AErr "not a TLS handshake"])] /\
  ~ In (SNI.Close c)
       (SNI.httpsWorker_conn SNI.toy_TLS (fun name => name)
          (fun _ => "10.0.0.2:51234") c).
Proof.
  split; [discriminate|]. split; [reflexivity|].
  intros [Hin | []]. discriminate Hin.
Qed.

(** ** Interception hook dispatcher *)

Section DispatcherFacts.

Variable Script : Type.
Variable JSResponse : Type.
Variable Response : Type.
Variable Script_OnRequest : Script -> Request -> option JSResponse.
Variable Script_OnResponse : Script -> Response -> option JSResponse.
Variable JSResponse_Body : JSResponse -> string.
Variable JSResponse_ToResponse : JSResponse -> Request -> Response.
Variable Response_Request : Response -> Request.
Variable RoundTrip : Request -> Response + error.

Local Abbreviation onRequest :=
  (Hooks.OnRequest_DoFunc Script_OnRequest JSResponse_Body JSResponse_ToResponse).
Local Abbreviation onResponse :=
  (Hooks.OnResponse_DoFunc Script_OnResponse JSResponse_Body
     JSResponse_ToResponse Response_Request).
Local Abbreviation exchange :=
  (Hooks.exchange Script_OnRequest Script_OnResponse JSResponse_Body
     JSResponse_ToResponse Response_Request RoundTrip).

(** The response leg on its own: one call into the script, and one event
    exactly when the script answers. *)
Lemma OnResponse_DoFunc_effect (p : Hooks.HTTPProxy Script) (script : Script)
    (res : Response) (w : Hooks.World Response) :
  Hooks.PScript p = Some script ->
  let w' := fst (onResponse p res w) in
  Hooks.roundTrips w' = Hooks.roundTrips w /\
  Hooks.hookCalls w' = (Hooks.hookCalls w ++ [Hooks.CalledOnResponse res])%list /\
  Hooks.events w' =
    (Hooks.events w ++
     match Script_OnResponse script res with
     | Some jsres =>
         [((Hooks.Name p ++ ".spoofed-response")%string,
           Hooks.spoofed JSResponse_Body (Response_Request res) jsres)]
     | None => []
     end)%list.
Proof.
  intros Hscript. unfold Hooks.OnResponse_DoFunc. rewrite Hscript.
  destruct (Script_OnResponse script res); simpl; repeat split.
  now rewrite app_nil_r.
Qed.

(** C7, as the code has it: when the script answers the request, the
    request leg records exactly one event, carrying the client's address up
    to its first colon, the method, the host, the path and the length of
    the body, and returns the synthetic response; the request is not sent
    upstream.  goproxy then runs the response leg on that synthetic
    response: the script's response handler is called once more, and a
    second event is recorded exactly when it answers too.  When the script
    answers neither leg, or there is no script, no event is recorded. *)
Theorem exchange_synthetic_response (p : Hooks.HTTPProxy Script) (req : Request)
    (w : Hooks.World Response) :
  (forall script jsres,
      Hooks.PScript p = Some script ->
      Script_OnRequest script req = Some jsres ->
      let res := JSResponse_ToResponse jsres req in
      let w1 := fst (onRequest p req w) in
      let w' := fst (exchange p req w) in
      snd (onRequest p req w) = (req, Some res) /\
      Hooks.events w1 =
        (Hooks.events w ++
         [((Hooks.Name p ++ ".spoofed-response")%string,
           Hooks.mkSpoofed (nth 0 (Split (RemoteAddr req) ":") "")
                           (Method req) (Host req) (URL_Path (ReqURL req))
                           (Z.of_nat (String.length (JSResponse_Body jsres))))])%list /\
      Hooks.roundTrips w' = Hooks.roundTrips w /\
      Hooks.hookCalls w' =
        (Hooks.hookCalls w ++
         [Hooks.CalledOnRequest req; Hooks.CalledOnResponse res])%list /\
      Hooks.events w' =
        (Hooks.events w1 ++
         match Script_OnResponse script res with
         | Some again =>
             [((Hooks.Name p ++ ".spoofed-response")%string,
               Hooks.spoofed JSResponse_Body (Response_Request res) again)]
         | None => []
         end)%list) /\
  ((Hooks.PScript p = None \/
    exists script,
      Hooks.PScript p = Some script /\ Script_OnRequest script req = None) ->
   snd (onRequest p req w) = (req, None) /\
   Hooks.events (fst (onRequest p req w)) = Hooks.events w /\
   forall res,
     RoundTrip req = inl res ->
     (Hooks.PScript p = None \/
      exists script,
        Hooks.PScript p = Some script /\ Script_OnResponse script res = None) ->
     Hooks.events (fst (exchange p req w)) = Hooks.events w).
Proof.
  split.
  - intros script jsres Hscript Hanswer. simpl.
    assert (Hleg : onRequest p req w =
                   (Hooks.logAction JSResponse_Body p req jsres
                      (Hooks.add_hookCall (Hooks.CalledOnRequest req)
                         (Hooks.add_log (Hooks.debug_line p "<" req) w)),
                    (req, Some (JSResponse_ToResponse jsres req)))).
    { unfold Hooks.OnRequest_DoFunc. now rewrite Hscript, Hanswer. }
    unfold Hooks.exchange. rewrite Hleg.
    destruct (OnResponse_DoFunc_effect p script
                (JSResponse_ToResponse jsres req)
                (Hooks.logAction JSResponse_Body p req jsres
                   (Hooks.add_hookCall (Hooks.CalledOnRequest req)
                      (Hooks.add_log (Hooks.debug_line p "<" req) w)))
                Hscript) as (Htrips & Hcalls & Hevents).
    destruct (onResponse p (JSResponse_ToResponse jsres req) _) as [w' res'].
    simpl in *. repeat split.
    + exact Htrips.
    + rewrite Hcalls. now rewrite <- app_assoc.
    + exact Hevents.
  - intros Hpass.
    assert (Hleg : onRequest p req w = (fst (onRequest p req w), (req, None)) /\
                   Hooks.events (fst (onRequest p req w)) = Hooks.events w).
    { unfold Hooks.OnRequest_DoFunc.
      destruct Hpass as [Hnone | (script & Hscript & Hanswer)].
      - now rewrite Hnone.
      - now rewrite Hscript, Hanswer. }
    destruct Hleg as [Hleg Hkeep].
    split; [now rewrite Hleg|]. split; [exact Hkeep|].
    intros res Hup Hpass'.
    unfold Hooks.exchange. rewrite Hleg, Hup.
    assert (Hres : Hooks.events
                     (fst (onResponse p res
                             (Hooks.add_roundTrip req (fst (onRequest p req w)))))
                   = Hooks.events w).
    { unfold Hooks.OnResponse_DoFunc.
      destruct Hpass' as [Hnone | (script & Hscript & Hanswer)].
      - now rewrite Hnone.
      - now rewrite Hscript, Hanswer. }
    now destruct (onResponse p res _).
Qed.

End DispatcherFacts.

Lemma exchange_synthetic_response_witness :
  Hooks.events
    (fst (Hooks.toy_exchange (Hooks.mkProxy "http.proxy" (Some (Some "spoofed", None)))
            Hooks.toy_request (Hooks.mkWorld [] [] [] [])))
  = [("http.proxy.spoofed-response",
      Hooks.mkSpoofed "10.0.0.2" "GET" "test.local" "/index.html" 7)].
Proof.
  destruct (proj1 (exchange_synthetic_response
                     (option string * option string)%type string
                     (Request * string)%type
                     Hooks.toy_OnRequest Hooks.toy_OnResponse (fun body => body)
                     Hooks.toy_ToResponse fst Hooks.toy_RoundTrip
                     (Hooks.mkProxy "http.proxy" (Some (Some "spoofed", None)))
                     Hooks.toy_request (Hooks.mkWorld [] [] [] []))
              (Some "spoofed", None) "spoofed" eq_refl eq_refl)
    as (_ & _ & _ & _ & Hevents).
  exact Hevents.
Defined.

(** C7 as stated fails: with a script that answers both legs, the request
    leg's synthetic response does not keep goproxy from running the
    response leg; the script's response handler is called on the synthetic
    response and a second event is recorded. *)
Lemma exchange_runs_response_leg :
  let p := Hooks.mkProxy "http.proxy" (Some (Some "spoofed", Some "again")) in
  let w := fst (Hooks.toy_exchange p Hooks.toy_request (Hooks.mkWorld [] [] [] [])) in
  Hooks.hookCalls w =
    [Hooks.CalledOnRequest Hooks.toy_request;
     Hooks.CalledOnResponse (Hooks.toy_request, "spoofed")] /\
  Hooks.roundTrips w = [] /\
  List.length (Hooks.events w) = 2%nat.
Proof. repeat split. Qed.

(** ** Listener and life cycle *)

Lemma not_In_filter_out (r : Redirection) (l : list Redirection) :
  ~ In r (List.filter (fun r' => negb (bool_decide (r' = r))) l).
Proof.
  intros Hin. apply List.filter_In in Hin as [_ Hkeep].
  rewrite bool_decide_eq_true_2 in Hkeep by reflexivity. discriminate.
Qed.

Section ManagerFacts.

Variable Script : Type.
Variable Certificate : Type.
Variable LoadProxyScript : string -> option error * option Script.
Variable fw_refuses : Lifecycle.Firewall -> Redirection -> bool -> option error.
Variable Interface_Name : string.
Variable ReadFile : string -> list byte.
Variable X509KeyPair : list byte -> list byte -> Certificate + error.
Variable ParseLeaf : Certificate -> Certificate + error.
Variable Server_Shutdown : string -> Z -> option error.

Local Abbreviation Configure :=
  (@Lifecycle.Configure Script Certificate LoadProxyScript fw_refuses
     Interface_Name).
Local Abbreviation ConfigureTLS :=
  (@Lifecycle.ConfigureTLS Script Certificate LoadProxyScript fw_refuses
     Interface_Name ReadFile X509KeyPair ParseLeaf).
Local Abbreviation Stop :=
  (@Lifecycle.Stop Script Certificate fw_refuses Server_Shutdown).

(** [Configure] starts nothing, however it ends. *)
Lemma Configure_starts_nothing (address : string) (proxyPort httpPort : Z)
    (scriptPath : string) (p : Lifecycle.HTTPProxy Script)
    (w : Lifecycle.World Certificate) :
  let p' := fst (fst (Configure address proxyPort httpPort scriptPath p w)) in
  Lifecycle.isRunning p' = Lifecycle.isRunning p /\
  Lifecycle.sniListener p' = Lifecycle.sniListener p /\
  Lifecycle.isTLS p' = Lifecycle.isTLS p.
Proof.
  unfold Lifecycle.Configure.
  destruct (String.eqb scriptPath ""); simpl.
  - destruct (Lifecycle.IsForwardingEnabled w); simpl;
      unfold Lifecycle.EnableRedirection;
      destruct (fw_refuses _ _ true); simpl; repeat split.
  - destruct (LoadProxyScript scriptPath) as [[err|] script]; simpl;
      [repeat split|].
    destruct (Lifecycle.IsForwardingEnabled _); simpl;
      unfold Lifecycle.EnableRedirection;
      destruct (fw_refuses _ _ true); simpl; repeat split.
Qed.

(** A [Configure] that returns no error has switched forwarding on and
    installed its redirection. *)
Lemma Configure_success (address : string) (proxyPort httpPort : Z)
    (scriptPath : string) (p p1 : Lifecycle.HTTPProxy Script)
    (w w1 : Lifecycle.World Certificate) :
  Configure address proxyPort httpPort scriptPath p w = (p1, w1, None) ->
  let r := mkRedirection Interface_Name "TCP" httpPort address proxyPort in
  Lifecycle.forwarding (Lifecycle.fw w1) = true /\
  In r (Lifecycle.redirections (Lifecycle.fw w1)) /\
  Lifecycle.PRedirection p1 = Some r /\
  Lifecycle.PScript p1 =
    (if String.eqb scriptPath "" then Lifecycle.PScript p
     else snd (LoadProxyScript scriptPath)).
Proof.
  unfold Lifecycle.Configure.
  destruct (String.eqb scriptPath ""); simpl.
  - unfold Lifecycle.IsForwardingEnabled.
    destruct (Lifecycle.forwarding (Lifecycle.fw w)) eqn:Hfwd; simpl;
      unfold Lifecycle.EnableRedirection;
      destruct (fw_refuses _ _ true); simpl; intros [= <- <-]; simpl;
      repeat split; try assumption; now left.
  - destruct (LoadProxyScript scriptPath) as [[err|] script]; simpl;
      [intros [=]|].
    unfold Lifecycle.IsForwardingEnabled. simpl.
    destruct (Lifecycle.forwarding (Lifecycle.fw w)) eqn:Hfwd; simpl;
      unfold Lifecycle.EnableRedirection;
      destruct (fw_refuses _ _ true); simpl; intros [= <- <-]; simpl;
      repeat split; try assumption; now left.
Qed.


(** C8, as the code has it: [Stop] first asks the firewall to remove the
    active redirection, and makes no firewall call when there is none.  If
    the firewall refuses, [Stop] returns that error at once and the
    listener is left as it was.  Otherwise the listener is shut down next:
    in TLS mode the running flag is set to false and the accept listener
    closed, in plain mode the server is shut down under a context of five
    seconds, whose result [Stop] returns. *)
Theorem Stop_redirection_then_listener (p : Lifecycle.HTTPProxy Script)
    (w : Lifecycle.World Certificate) :
  (forall r err,
      Lifecycle.PRedirection p = Some r ->
      fw_refuses (Lifecycle.fw w) r false = Some err ->
      let '(p', w', e) := Stop p w in
      e = Lifecycle.Returns (Some err) /\
      p' = p /\
      Lifecycle.fw w' = Lifecycle.fw w /\
      Lifecycle.calls w' =
        (Lifecycle.calls w ++ [Lifecycle.FwEnableRedirection r false])%list) /\
  (forall r,
      Lifecycle.PRedirection p = Some r ->
      fw_refuses (Lifecycle.fw w) r false = None ->
      let '(p', w', e) := Stop p w in
      Lifecycle.PRedirection p' = None /\
      ~ In r (Lifecycle.redirections (Lifecycle.fw w')) /\
      (Lifecycle.isTLS p = true ->
       forall l,
         Lifecycle.sniListener p = Some l ->
         Lifecycle.calls w' =
           (Lifecycle.calls w ++
            [Lifecycle.FwEnableRedirection r false; Lifecycle.ListenerClose l])%list /\
         Lifecycle.isRunning p' = false /\
         e = Lifecycle.Returns None) /\
      (Lifecycle.isTLS p = false ->
       Lifecycle.calls w' =
         (Lifecycle.calls w ++
          [Lifecycle.FwEnableRedirection r false;
           Lifecycle.ServerShutdown (Lifecycle.Server_Addr p) 5])%list /\
       e = Lifecycle.Returns (Server_Shutdown (Lifecycle.Server_Addr p) 5))) /\
  (Lifecycle.PRedirection p = None ->
   let '(p', w', e) := Stop p w in
   Lifecycle.fw w' = Lifecycle.fw w /\
   (Lifecycle.isTLS p = true ->
    forall l,
      Lifecycle.sniListener p = Some l ->
      Lifecycle.calls w' = (Lifecycle.calls w ++ [Lifecycle.ListenerClose l])%list /\
      Lifecycle.isRunning p' = false /\
      e = Lifecycle.Returns None) /\
   (Lifecycle.isTLS p = false ->
    Lifecycle.calls w' =
      (Lifecycle.calls w ++
       [Lifecycle.ServerShutdown (Lifecycle.Server_Addr p) 5])%list /\
    e = Lifecycle.Returns (Server_Shutdown (Lifecycle.Server_Addr p) 5))).
Proof.
  split; [|split].
  - intros r err Hred Hrefuse. unfold Lifecycle.Stop. rewrite Hred.
    unfold Lifecycle.EnableRedirection. simpl. rewrite Hrefuse.
    now repeat split.
  - intros r Hred Haccept. unfold Lifecycle.Stop. rewrite Hred.
    unfold Lifecycle.EnableRedirection. simpl. rewrite Haccept.
    unfold Lifecycle.shutdown_listener. simpl.
    destruct (Lifecycle.isTLS p) eqn:Htls.
    + destruct (Lifecycle.sniListener p) as [l|] eqn:Hlis; simpl;
        (split; [reflexivity|]); (split; [apply not_In_filter_out|]);
        (split; [|discriminate]); intros _ l' [=]. subst l'.
      repeat split. now rewrite <- app_assoc.
    + simpl. split; [reflexivity|]. split; [apply not_In_filter_out|].
      split; [discriminate|]. intros _. split; [|reflexivity].
      now rewrite <- app_assoc.
  - intros Hred. unfold Lifecycle.Stop. rewrite Hred.
    unfold Lifecycle.shutdown_listener.
    destruct (Lifecycle.isTLS p) eqn:Htls.
    + destruct (Lifecycle.sniListener p) as [l|] eqn:Hlis; simpl;
        (split; [reflexivity|]); (split; [|discriminate]); intros _ l' [=].
      subst l'. now repeat split.
    + simpl. split; [reflexivity|]. split; [discriminate|]. now intros _.
Qed.

End ManagerFacts.



Lemma Stop_redirection_then_listener_witness :
  let r := mkRedirection "eth0" "TCP" 443 "10.0.0.1" 8083 in
  let p := Lifecycle.mkProxy "https.proxy" "10.0.0.1" "10.0.0.1:8083" (Some r)
             None "ca.pem" "ca.key" true true (Some "10.0.0.1:8083") in
  let w := Lifecycle.mkWorld (Lifecycle.mkFirewall true [r])
             [Lifecycle.FwEnableRedirection r true] None [] in
  let '(p', w', e) := Lifecycle.toy_Stop Lifecycle.refuse_nothing p w in
  Lifecycle.calls w' =
    [Lifecycle.FwEnableRedirection r true;
     Lifecycle.FwEnableRedirection r false;
     Lifecycle.ListenerClose "10.0.0.1:8083"] /\
  Lifecycle.isRunning p' = false /\
  e = Lifecycle.Returns None.
Proof.
  exact (proj1 (proj2 (proj2
          (proj1 (proj2
            (Stop_redirection_then_listener
               string (list byte * list byte)%type Lifecycle.refuse_nothing
               Lifecycle.toy_Shutdown
               (Lifecycle.mkProxy "https.proxy" "10.0.0.1" "10.0.0.1:8083"
                  (Some (mkRedirection "eth0" "TCP" 443 "10.0.0.1" 8083))
                  None "ca.pem" "ca.key" true true (Some "10.0.0.1:8083"))
               (Lifecycle.mkWorld
                  (Lifecycle.mkFirewall true
                     [mkRedirection "eth0" "TCP" 443 "10.0.0.1" 8083])
                  [Lifecycle.FwEnableRedirection
                     (mkRedirection "eth0" "TCP" 443 "10.0.0.1" 8083) true]
                  None [])))
            _ eq_refl eq_refl)))
          eq_refl _ eq_refl).
Defined.

(** C8 as stated fails: in TLS mode with a redirection the firewall refuses
    to remove, [Stop] returns the firewall's error; the running flag is
    still true and the listener has not been closed. *)
Lemma Stop_refused_leaves_listener :
  let r := mkRedirection "eth0" "TCP" 443 "10.0.0.1" 8083 in
  let p := Lifecycle.mkProxy "https.proxy" "10.0.0.1" "10.0.0.1:8083" (Some r)
             None "ca.pem" "ca.key" true true (Some "10.0.0.1:8083") in
  let w := Lifecycle.mkWorld (Lifecycle.mkFirewall true [r])
             [Lifecycle.FwEnableRedirection r true] None [] in
  let '(p', w', e) := Lifecycle.toy_Stop Lifecycle.refuse_removal p w in
  e = Lifecycle.Returns (Some "iptables: permission denied") /\
  Lifecycle.isRunning p' = true /\
  existsb Lifecycle.is_shutdown (Lifecycle.calls w') = false /\
  In r (Lifecycle.redirections (Lifecycle.fw w')).
Proof. repeat split. now left. Qed.

(** ** Certificate cache and forger: calls in flight together *)

Section ConcurrentForgerFacts.

Opaque CertCache.hostPort.

Variable Certificate : Type.
Variable sign : nat -> Certificate -> string -> Z -> Certificate + error.
Variable ca : Certificate.

(** One call scheduled alone, three turns in a row, is [TLSConfigFromCA]. *)
Lemma run_schedule_alone (host : string) (st : CertCache.State Certificate) :
  CertCache.run_schedule sign ca [0; 0; 0]%nat (st, [CertCache.AtLookup host]) =
    (fst (CertCache.TLSConfigFromCA sign ca host st),
     [CertCache.Returned (snd (CertCache.TLSConfigFromCA sign ca host st))]).
Proof.
  unfold CertCache.TLSConfigFromCA, CertCache.GetOrCreate.
  unfold CertCache.run_schedule, CertCache.step_thread. simpl.
  destruct (CertCache.hostPort host) as [hostname port].
  destruct (CertCache.getCachedCert hostname port st) as [cert|]; simpl;
    [reflexivity|].
  destruct (CertCache.forge sign ca hostname port st) as [st1 [cert|err]];
    reflexivity.
Qed.

(** A turn never adds more signings than it takes calls past the signer. *)
Lemma step_call_bound (c : CertCache.Call Certificate)
    (st : CertCache.State Certificate) :
  let '(st', c') := CertCache.step_call sign ca c st in
  (List.length (CertCache.signings st')
   + (if CertCache.before_signing c' then 1 else 0)
   <= List.length (CertCache.signings st)
      + (if CertCache.before_signing c then 1 else 0))%nat.
Proof.
  destruct c as [host|hostname port|hostname port cert|result]; simpl.
  - destruct (CertCache.hostPort host) as [hostname port].
    destruct (CertCache.getCachedCert hostname port st); simpl; lia.
  - unfold CertCache.forge, CertCache.sign. simpl.
    destruct (sign _ ca hostname port); simpl; rewrite length_app; simpl; lia.
  - lia.
  - lia.
Qed.

Lemma pending_insert (calls : list (CertCache.Call Certificate)) (i : nat)
    (c c' : CertCache.Call Certificate) :
  calls !! i = Some c ->
  (CertCache.pending (<[i := c']> calls)
   + (if CertCache.before_signing c then 1 else 0)
   = CertCache.pending calls
     + (if CertCache.before_signing c' then 1 else 0))%nat.
Proof.
  revert i. induction calls as [|c0 calls IH]; intros [|i]; simpl;
    try discriminate.
  - intros [= ->]. lia.
  - intros Hi. specialize (IH i Hi). lia.
Qed.

Lemma step_thread_bound (i : nat)
    (sys : CertCache.State Certificate * list (CertCache.Call Certificate)) :
  let sys' := CertCache.step_thread sign ca i sys in
  (List.length (CertCache.signings (fst sys')) + CertCache.pending (snd sys')
   <= List.length (CertCache.signings (fst sys)) + CertCache.pending (snd sys))%nat.
Proof.
  destruct sys as [st calls]. unfold CertCache.step_thread. simpl.
  destruct (calls !! i) as [c|] eqn:Hi; simpl; [|lia].
  pose proof (step_call_bound c st) as Hstep.
  destruct (CertCache.step_call sign ca c st) as [st' c']. simpl.
  pose proof (pending_insert calls i c c' Hi). lia.
Qed.

Lemma run_schedule_bound (schedule : list nat)
    (sys : CertCache.State Certificate * list (CertCache.Call Certificate)) :
  let sys' := CertCache.run_schedule sign ca schedule sys in
  (List.length (CertCache.signings (fst sys')) + CertCache.pending (snd sys')
   <= List.length (CertCache.signings (fst sys)) + CertCache.pending (snd sys))%nat.
Proof.
  revert sys. induction schedule as [|i schedule IH]; intros sys; simpl; [lia|].
  specialize (IH (CertCache.step_thread sign ca i sys)). simpl in IH.
  pose proof (step_thread_bound i sys) as Hstep. simpl in Hstep. lia.
Qed.

Lemma pending_all_at_lookup (hosts : list string) :
  CertCache.pending (map (@CertCache.AtLookup Certificate) hosts) = List.length hosts.
Proof. induction hosts as [|h hosts IH]; simpl; [reflexivity | now rewrite IH]. Qed.

(** A turn never removes an entry from the cache. *)
Lemma step_thread_keeps_cached (i : nat) (key : string * Z)
    (sys : CertCache.State Certificate * list (CertCache.Call Certificate)) :
  is_Some (CertCache.certCache (fst sys) !! key) ->
  is_Some (CertCache.certCache (fst (CertCache.step_thread sign ca i sys)) !! key).
Proof.
  destruct sys as [st calls]. unfold CertCache.step_thread. simpl.
  destruct (calls !! i) as [c|]; simpl; [|easy].
  intros Hcached.
  destruct c as [host|hostname port|hostname port cert|result]; simpl.
  - destruct (CertCache.hostPort host) as [hostname port].
    now destruct (CertCache.getCachedCert hostname port st).
  - unfold CertCache.forge, CertCache.sign. simpl.
    now destruct (sign _ ca hostname port).
  - rewrite lookup_insert. case_decide; [eauto | assumption].
  - assumption.
Qed.

Lemma run_schedule_keeps_cached (schedule : list nat) (key : string * Z)
    (sys : CertCache.State Certificate * list (CertCache.Call Certificate)) :
  is_Some (CertCache.certCache (fst sys) !! key) ->
  is_Some (CertCache.certCache
             (fst (CertCache.run_schedule sign ca schedule sys)) !! key).
Proof.
  revert sys. induction schedule as [|i schedule IH]; intros sys; simpl;
    [easy|].
  intros Hcached. apply IH. now apply step_thread_keeps_cached.
Qed.


End ConcurrentForgerFacts.

Transparent CertCache.hostPort.



(** * Further properties *)

(** ** Addresses and ports *)

Lemma stripPort_String (a : ascii) (s : string) :
  SNI.stripPort (String a s) =
    if Ascii.eqb a ":" then EmptyString else String a (SNI.stripPort s).
Proof.
  unfold SNI.stripPort. simpl.
  destruct (Ascii.eqb a ":"); [reflexivity|].
  now destruct (IndexRune s ":").
Qed.

(** [stripPort] (lines 44-50) splits its argument at the first colon: the
    result holds no colon, and the argument is the result, alone or
    followed by a colon and the rest. *)
Theorem stripPort_cuts_at_first_colon (s : string) :
  ~ In ":"%char (list_ascii_of_string (SNI.stripPort s)) /\
  (s = SNI.stripPort s \/ exists rest, s = SNI.stripPort s ++ ":" ++ rest).
Proof.
  induction s as [|a s [IHnot IHsplit]].
  - split; [easy | now left].
  - rewrite stripPort_String.
    destruct (Ascii.eqb_spec a ":") as [->|Hne].
    + split; [easy|]. right. now exists s.
    + split.
      * simpl. intros [Heq | Hin]; [congruence | contradiction].
      * destruct IHsplit as [Hsame | (rest & Hrest)].
        -- left. now f_equal.
        -- right. exists rest. unfold String.append; fold String.append.
           now f_equal.
Qed.

Lemma Cut_stripPort (s : string) :
  SNI.stripPort s =
    match Cut ":" s with
    | Some (before, _) => before
    | None => s
    end.
Proof.
  induction s as [|a s IH]; [reflexivity|].
  rewrite stripPort_String. simpl.
  destruct (Ascii.eqb a ":"); [reflexivity|].
  rewrite IH. now destruct (Cut ":" s) as [[before after]|].
Qed.

Lemma Split_not_nil (s : string) (sep : ascii) : Split s sep <> [].
Proof.
  induction s as [|a s IH]; simpl; [easy|].
  destruct (Ascii.eqb a sep); [easy|].
  now destruct (Split s sep).
Qed.

Lemma Split_head_stripPort (s : string) :
  nth 0 (Split s ":") "" = SNI.stripPort s.
Proof.
  induction s as [|a s IH]; [reflexivity|].
  rewrite stripPort_String. simpl.
  destruct (Ascii.eqb a ":"); [reflexivity|].
  pose proof (Split_not_nil s ":") as Hne.
  destruct (Split s ":") as [|piece pieces]; [contradiction|].
  simpl in *. now rewrite IH.
Qed.

(** The three places that cut an address at its first colon agree: the
    hostname of the cache key (lines 173-174), the [To] field that
    [logAction] records (line 104) and [stripPort] (lines 44-50) give the
    same text, and it never holds a colon. *)
Theorem address_cuts_agree (s : string) (req : Request) :
  fst (CertCache.hostPort s) = SNI.stripPort s /\
  ~ In ":"%char (list_ascii_of_string (fst (CertCache.hostPort s))) /\
  (forall (JSResponse : Type) (body : JSResponse -> string) (jsres : JSResponse),
      Hooks.To (Hooks.spoofed body req jsres) = SNI.stripPort (RemoteAddr req)).
Proof.
  assert (Hkey : fst (CertCache.hostPort s) = SNI.stripPort s).
  { rewrite Cut_stripPort. unfold CertCache.hostPort, SplitN_2. simpl.
    now destruct (Cut ":" s) as [[before after]|]. }
  split; [exact Hkey|]. split.
  - rewrite Hkey. apply stripPort_cuts_at_first_colon.
  - intros JSResponse body jsres. unfold Hooks.spoofed. simpl.
    apply Split_head_stripPort.
Qed.

Lemma digit_of_pretty_N_char (d : N) :
  (d < 10)%N -> digit_of (pretty_N_char d) = Some (Z.of_N d).
Proof.
  intros Hd.
  assert (d = 0 \/ d = 1 \/ d = 2 \/ d = 3 \/ d = 4 \/ d = 5 \/ d = 6 \/
          d = 7 \/ d = 8 \/ d = 9)%N as Hcases by lia.
  repeat (destruct Hcases as [-> | Hcases]; [reflexivity|]).
  now subst d.
Qed.

(** Reading back the digits [pretty_N_go] puts in front of a string. *)
Lemma digits_pretty_N_go (x : N) :
  forall (s : string) (acc : Z),
  exists k : nat,
    digits (pretty_N_go x s) acc =
      digits s (acc * 10 ^ Z.of_nat k + Z.of_N x).
Proof.
  induction (N.lt_wf_0 x) as [x _ IH]. intros s acc.
  destruct (N.eq_dec x 0%N) as [->|Hpos].
  - exists 0%nat. rewrite pretty_N_go_0. f_equal. simpl. lia.
  - rewrite pretty_N_go_step by lia.
    destruct (IH (x `div` 10)%N ltac:(apply N.div_lt; lia)
                 (String (pretty_N_char (x `mod` 10)) s) acc) as [k Hk].
    exists (S k). rewrite Hk. simpl.
    rewrite digit_of_pretty_N_char by (apply N.mod_lt; lia).
    f_equal.
    rewrite Nat2Z.inj_succ, Z.pow_succ_r by lia.
    rewrite (N.div_mod x 10) at 3 by lia.
    rewrite N2Z.inj_add, N2Z.inj_mul. simpl Z.of_N. lia.
Qed.

Lemma digits_pretty_pos (p : positive) :
  digits (pretty (Npos p)) 0 = Some (Zpos p) /\ pretty (Npos p) <> "".
Proof.
  assert (Hdigits : digits (pretty (Npos p)) 0 = Some (Zpos p)).
  { unfold pretty, pretty_N. simpl.
    destruct (digits_pretty_N_go (Npos p) "" 0) as [k ->]. simpl. reflexivity. }
  split; [exact Hdigits|].
  intros Hempty. rewrite Hempty in Hdigits. discriminate.
Qed.

Lemma Atoi_unsigned (s : string) (n : Z) :
  s <> "" -> digits s 0 = Some n -> minInt <= n <= maxInt -> Atoi s = Some n.
Proof.
  intros Hne Hdigits Hrange. destruct s as [|a rest]; [contradiction|].
  unfold Atoi.
  assert (Hminus : Ascii.eqb a "-" = false).
  { destruct (Ascii.eqb_spec a "-") as [->|]; [discriminate Hdigits | reflexivity]. }
  assert (Hplus : Ascii.eqb a "+" = false).
  { destruct (Ascii.eqb_spec a "+") as [->|]; [discriminate Hdigits | reflexivity]. }
  rewrite Hminus, Hplus. simpl orb. cbv iota. rewrite Hdigits.
  destruct (Z.leb_spec minInt n), (Z.leb_spec n maxInt); simpl; (reflexivity || lia).
Qed.

Lemma Atoi_negative (body : string) (n : Z) :
  body <> "" -> digits body 0 = Some n -> minInt <= - n <= maxInt ->
  Atoi (String "-" body) = Some (- n).
Proof.
  intros Hne Hdigits Hrange. unfold Atoi. simpl.
  destruct body as [|a rest]; [contradiction|]. rewrite Hdigits.
  destruct (Z.leb_spec minInt (- n)), (Z.leb_spec (- n) maxInt); simpl;
    (reflexivity || lia).
Qed.

Lemma Atoi_itoa (port : Z) :
  minInt <= port <= maxInt -> Atoi (itoa port) = Some port.
Proof.
  intros Hrange. unfold itoa, pretty, pretty_Z.
  destruct port as [|p|p].
  - reflexivity.
  - destruct (digits_pretty_pos p) as [Hdigits Hne].
    now apply Atoi_unsigned.
  - destruct (digits_pretty_pos p) as [Hdigits Hne].
    change (Z.neg p) with (- Z.pos p).
    change ("-" +:+ pretty p) with (String "-" (pretty (Npos p))).
    now apply Atoi_negative.
Qed.

(** A host string that ends in a colon and a port printed in decimal, as
    [%d] prints the [int] of line 147, is read back by lines 173-181 as
    that hostname and that port, for every port in the range of [int] and
    every hostname without a colon. *)
Theorem hostPort_reads_printed_port (hostname : string) (port : Z) :
  ~ In ":"%char (list_ascii_of_string hostname) ->
  minInt <= port <= maxInt ->
  CertCache.hostPort (hostname ++ ":" ++ itoa port) = (hostname, port).
Proof.
  intros Hnot Hrange.
  rewrite (hostPort_with_suffix _ _ Hnot). now rewrite Atoi_itoa.
Qed.

Lemma hostPort_reads_printed_port_witness :
  CertCache.hostPort ("secure.test" ++ ":" ++ itoa 8443) = ("secure.test", 8443).
Proof.
  apply hostPort_reads_printed_port.
  - simpl. intuition discriminate.
  - unfold minInt, maxInt, intSize. simpl. lia.
Defined.

(** ** Certificate cache and forger: what a call touches *)

Section ForgerFrame.

Variable Certificate : Type.
Variable sign : nat -> Certificate -> string -> Z -> Certificate + error.
Variable ca : Certificate.

Lemma GetOrCreate_miss_forges (hostname : string) (port : Z)
    (st : CertCache.State Certificate) (cert : Certificate) :
  CertCache.getCachedCert hostname port st = None ->
  sign (List.length (CertCache.signings st)) ca hostname port = inl cert ->
  CertCache.GetOrCreate sign ca hostname port st =
    (CertCache.mkState
       (<[(hostname, port) := cert]> (CertCache.certCache st))
       (CertCache.signings st ++ [(hostname, port)])
       (CertCache.logged st ++
          [(LInfo, "Creating spoofed certificate for %s:%d",
            [AStyled "yellow" hostname; AInt port])]),
     inl (CertCache.mkConfig true [cert])).
Proof.
  intros Hmiss Hsign.
  unfold CertCache.GetOrCreate, CertCache.forge, CertCache.sign.
  rewrite Hmiss. simpl. now rewrite Hsign.
Qed.

(** A call of the closure of [TLSConfigFromCA] (lines 183-193) touches the
    cache at its own key only, and only when that key was missing: every
    other entry, and every entry that was there already, is left as it
    was.  It calls the signer when its key is missing and never otherwise,
    at most once, and for its own key. *)
Theorem TLSConfigFromCA_frame (host : string) (st : CertCache.State Certificate) :
  let st' := fst (CertCache.TLSConfigFromCA sign ca host st) in
  (forall key,
      key <> CertCache.hostPort host ->
      CertCache.certCache st' !! key = CertCache.certCache st !! key) /\
  (forall key,
      is_Some (CertCache.certCache st !! key) ->
      CertCache.certCache st' !! key = CertCache.certCache st !! key) /\
  CertCache.signings st' =
    (CertCache.signings st ++
     match CertCache.certCache st !! CertCache.hostPort host with
     | Some _ => []
     | None => [CertCache.hostPort host]
     end)%list.
Proof.
  unfold CertCache.TLSConfigFromCA.
  destruct (CertCache.hostPort host) as [hostname port]. simpl.
  unfold CertCache.GetOrCreate, CertCache.getCachedCert.
  destruct (CertCache.certCache st !! (hostname, port)) as [cached|] eqn:Hget;
    simpl.
  - repeat split. now rewrite app_nil_r.
  - unfold CertCache.forge, CertCache.sign. simpl.
    destruct (sign _ ca hostname port) as [cert|err]; simpl.
    + split; [|split; [|reflexivity]].
      * intros key Hkey. now rewrite lookup_insert_ne.
      * intros key [c Hc]. rewrite lookup_insert_ne; [reflexivity|].
        intros <-. rewrite Hget in Hc. discriminate.
    + repeat split.
Qed.

(** When the key is missing and the signer succeeds (lines 184-200), the
    configuration returned skips verification and carries exactly the
    signer's certificate, made with the given CA for this hostname and
    port; that certificate is stored under the key, one signing is
    recorded and one line is logged. *)
Theorem TLSConfigFromCA_forges_on_miss (host : string)
    (st : CertCache.State Certificate) (cert : Certificate) :
  let hostname := fst (CertCache.hostPort host) in
  let port := snd (CertCache.hostPort host) in
  CertCache.getCachedCert hostname port st = None ->
  sign (List.length (CertCache.signings st)) ca hostname port = inl cert ->
  let '(st', result) := CertCache.TLSConfigFromCA sign ca host st in
  result = inl (CertCache.mkConfig true [cert]) /\
  CertCache.certCache st' = <[(hostname, port) := cert]> (CertCache.certCache st) /\
  CertCache.getCachedCert hostname port st' = Some cert /\
  CertCache.signings st' = (CertCache.signings st ++ [(hostname, port)])%list /\
  CertCache.logged st' =
    (CertCache.logged st ++
     [(LInfo, "Creating spoofed certificate for %s:%d",
       [AStyled "yellow" hostname; AInt port])])%list.
Proof.
  unfold CertCache.TLSConfigFromCA.
  destruct (CertCache.hostPort host) as [hostname port]. simpl.
  intros Hmiss Hsign. rewrite (GetOrCreate_miss_forges _ _ _ _ Hmiss Hsign).
  repeat split. unfold CertCache.getCachedCert. simpl. apply lookup_insert_eq.
Qed.

Lemma call_each_cached (hosts : list string) (hostname : string) (port : Z)
    (st : CertCache.State Certificate) (cert : Certificate) :
  Forall (fun host => CertCache.hostPort host = (hostname, port)) hosts ->
  CertCache.getCachedCert hostname port st = Some cert ->
  Sequences.call_each sign ca hosts st =
    (st, repeat (inl (CertCache.config_of cert)) (List.length hosts)).
Proof.
  intros Hkeys Hhit. induction Hkeys as [|host hosts Hkey _ IH]; [reflexivity|].
  simpl. unfold CertCache.TLSConfigFromCA. rewrite Hkey.
  rewrite (GetOrCreate_hit _ sign ca _ _ _ _ Hhit). now rewrite IH.
Qed.

(** Calls for one (hostname, port) made one after another, each returning
    before the next begins, sign exactly once when the key is missing at
    first and the signer succeeds: the first call signs, and every call
    returns that same certificate. *)
Theorem call_each_signs_once (hosts : list string) (hostname : string)
    (port : Z) (st : CertCache.State Certificate) (cert : Certificate) :
  hosts <> [] ->
  Forall (fun host => CertCache.hostPort host = (hostname, port)) hosts ->
  CertCache.getCachedCert hostname port st = None ->
  sign (List.length (CertCache.signings st)) ca hostname port = inl cert ->
  let '(st', results) := Sequences.call_each sign ca hosts st in
  CertCache.signings st' = (CertCache.signings st ++ [(hostname, port)])%list /\
  results = repeat (inl (CertCache.config_of cert)) (List.length hosts).
Proof.
  intros Hne Hkeys Hmiss Hsign.
  destruct Hkeys as [|host hosts Hkey Hkeys]; [contradiction|].
  simpl. unfold CertCache.TLSConfigFromCA. rewrite Hkey.
  rewrite (GetOrCreate_miss_forges _ _ _ _ Hmiss Hsign).
  rewrite (call_each_cached hosts hostname port _ cert Hkeys).
  - split; reflexivity.
  - unfold CertCache.getCachedCert. simpl. apply lookup_insert_eq.
Qed.

End ForgerFrame.

(** ** Host filter and the handler of plain requests *)

Lemma prefix_splits (p s : string) :
  String.prefix p s = true <-> exists rest, s = p ++ rest.
Proof.
  split; [|intros [rest ->]; apply prefix_append].
  revert s. induction p as [|a p IH]; intros s Hpre.
  - now exists s.
  - destruct s as [|b s]; simpl in Hpre; [discriminate|].
    destruct (ascii_dec a b) as [->|]; [|discriminate].
    destruct (IH s Hpre) as [rest ->]. now exists rest.
Qed.

(** [doProxy] (lines 112-131) accepts exactly the requests whose host is
    not empty and begins with neither [localhost] nor [127.0.0.1]; it logs
    nothing for a request it accepts and exactly one error line for one it
    refuses. *)
Theorem doProxy_accepts_exactly (req : Request) :
  (fst (HostFilter.doProxy req) = true <-> eligible_host (Host req)) /\
  (fst (HostFilter.doProxy req) = true -> snd (HostFilter.doProxy req) = []) /\
  (fst (HostFilter.doProxy req) = false ->
   exists fmt args, snd (HostFilter.doProxy req) = [(LError, fmt, args)]).
Proof.
  unfold eligible_host, HostFilter.doProxy.
  destruct (String.eqb_spec (Host req) "") as [Hempty|Hhost]; simpl.
  { split; [|split].
    - split; [discriminate|]. now intros [Hne _].
    - discriminate.
    - intros _. now eexists _, _. }
  unfold HasPrefix.
  destruct (String.prefix "localhost" (Host req)) eqn:Hlocal; simpl.
  { apply prefix_splits in Hlocal. split; [|split].
    - split; [discriminate|]. now intros (_ & Hnot & _).
    - discriminate.
    - intros _. now eexists _, _. }
  destruct (String.prefix "127.0.0.1" (Host req)) eqn:Hloop; simpl.
  { apply prefix_splits in Hloop. split; [|split].
    - split; [discriminate|]. now intros (_ & _ & Hnot).
    - discriminate.
    - intros _. now eexists _, _. }
  split; [|split].
  - split; [|reflexivity]. intros _. split; [exact Hhost|].
    split; intros Hpre; apply prefix_splits in Hpre; congruence.
  - reflexivity.
  - discriminate.
Qed.

(** The handler installed for plain requests (lines 60-65) hands a request
    to the proxy core exactly when its host is eligible; the request it
    hands over is the one it got with the URL's host set to the request's
    host, nothing else changed; a request it refuses is dropped with one
    error line. *)
Theorem NonproxyHandler_forwards_eligible (req : Request) :
  (snd (NonproxyHandler req) <> None <-> eligible_host (Host req)) /\
  (forall req',
      snd (NonproxyHandler req) = Some req' ->
      URL_Host (ReqURL req') = Host req /\
      URL_Opaque (ReqURL req') = URL_Opaque (ReqURL req) /\
      URL_Path (ReqURL req') = URL_Path (ReqURL req) /\
      Method req' = Method req /\
      Host req' = Host req /\
      RemoteAddr req' = RemoteAddr req /\
      Header req' = Header req /\
      fst (NonproxyHandler req) = []) /\
  (snd (NonproxyHandler req) = None ->
   exists fmt args, fst (NonproxyHandler req) = [(LError, fmt, args)]).
Proof.
  destruct (doProxy_accepts_exactly req) as (Hiff & Hquiet & Hloud).
  unfold NonproxyHandler.
  destruct (HostFilter.doProxy req) as [[|] lines]; simpl in *.
  - split; [|split].
    + split; [intros _; now apply Hiff | easy].
    + intros req' [= <-]. simpl. repeat split. now apply Hquiet.
    + discriminate.
  - split; [|split].
    + split; [easy|]. intros Hok. apply Hiff in Hok. discriminate.
    + discriminate.
    + intros _. now apply Hloud.
Qed.

(** ** CONNECT adapter: a run of writes *)

Section AdapterRuns.

Variable Conn : Type.
Variable Conn_Write : Conn -> list byte -> Conn * (Z * option error).

(** Through a run of writes the adapter (lines 249-254) is transparent but
    for the handshake literal: the raw connection ends as if it had been
    written the same buffers in the same order with every buffer equal to
    the literal left out, and every write is answered. *)
Theorem Write_each_drops_only_literal (dumb : Conn) (bufs : list (list byte)) :
  fst (Sequences.Write_each Conn_Write dumb bufs) =
    Sequences.Conn_Write_each Conn_Write dumb
      (List.filter (fun buf => negb (bytes_Equal buf Adapter.okConnect)) bufs) /\
  List.length (snd (Sequences.Write_each Conn_Write dumb bufs)) = List.length bufs.
Proof.
  revert dumb. induction bufs as [|buf bufs IH]; intros dumb; simpl;
    [now split|].
  unfold Adapter.dumbResponseWriter_Write.
  destruct (bytes_Equal buf Adapter.okConnect); simpl.
  - destruct (IH dumb) as [Hconn Hlen].
    destruct (Sequences.Write_each Conn_Write dumb bufs). simpl in *.
    split; [exact Hconn | now f_equal].
  - destruct (Conn_Write dumb buf) as [dumb' result]. simpl.
    destruct (IH dumb') as [Hconn Hlen].
    destruct (Sequences.Write_each Conn_Write dumb' bufs). simpl in *.
    split; [exact Hconn | now f_equal].
Qed.

(** The literal is dropped only when it is the whole buffer: a buffer of
    any other length goes to the raw connection as it is, so the literal
    followed by more bytes passes, and so do its two halves written one
    after the other. *)
Theorem dumbResponseWriter_Write_exact_match_only (dumb : Conn) :
  (forall buf,
      List.length buf <> 19%nat ->
      Adapter.dumbResponseWriter_Write Conn_Write dumb buf = Conn_Write dumb buf) /\
  (forall more,
      more <> [] ->
      Adapter.dumbResponseWriter_Write Conn_Write dumb
        (Adapter.okConnect ++ more)%list =
      Conn_Write dumb (Adapter.okConnect ++ more)%list) /\
  (forall front back,
      (front ++ back)%list = Adapter.okConnect ->
      front <> [] -> back <> [] ->
      fst (Sequences.Write_each Conn_Write dumb [front; back]) =
        Sequences.Conn_Write_each Conn_Write dumb [front; back]).
Proof.
  assert (Hlen : forall buf,
             List.length buf <> 19%nat ->
             Adapter.dumbResponseWriter_Write Conn_Write dumb buf =
               Conn_Write dumb buf).
  { intros buf Hbuf. unfold Adapter.dumbResponseWriter_Write.
    destruct (bytes_Equal buf Adapter.okConnect) eqn:Heq; [|reflexivity].
    apply bytes_Equal_eq in Heq. subst buf. now contradict Hbuf. }
  split; [exact Hlen|]. split.
  - intros more Hmore. apply Hlen. rewrite length_app.
    destruct more; [contradiction|]. simpl. lia.
  - intros front back Hsplit Hfront Hback.
    assert (Hsum : (List.length front + List.length back = 19)%nat).
    { rewrite <- length_app, Hsplit. reflexivity. }
    assert (List.length front <> 0%nat) by now destruct front.
    assert (List.length back <> 0%nat) by now destruct back.
    pose proof (Write_each_drops_only_literal dumb [front; back]) as [-> _].
    simpl.
    destruct (bytes_Equal front Adapter.okConnect) eqn:Hf.
    { apply bytes_Equal_eq in Hf. subst front. simpl in Hsum. lia. }
    destruct (bytes_Equal back Adapter.okConnect) eqn:Hb.
    { apply bytes_Equal_eq in Hb. subst back. simpl in Hsum. lia. }
    reflexivity.
Qed.

End AdapterRuns.

(** ** Interception hook dispatcher: the other paths *)

Section DispatcherPaths.

Variable Script : Type.
Variable JSResponse : Type.
Variable Response : Type.
Variable Script_OnRequest : Script -> Request -> option JSResponse.
Variable Script_OnResponse : Script -> Response -> option JSResponse.
Variable JSResponse_Body : JSResponse -> string.
Variable JSResponse_ToResponse : JSResponse -> Request -> Response.
Variable Response_Request : Response -> Request.
Variable RoundTrip : Request -> Response + error.

Local Abbreviation onResponse :=
  (Hooks.OnResponse_DoFunc Script_OnResponse JSResponse_Body
     JSResponse_ToResponse Response_Request).


End DispatcherPaths.

(** ** Listener and life cycle: the other paths *)

Section ManagerPaths.

Variable Script : Type.
Variable Certificate : Type.
Variable LoadProxyScript : string -> option error * option Script.
Variable fw_refuses : Lifecycle.Firewall -> Redirection -> bool -> option error.
Variable Interface_Name : string.
Variable ReadFile : string -> list byte.
Variable X509KeyPair : list byte -> list byte -> Certificate + error.
Variable ParseLeaf : Certificate -> Certificate + error.
Variable Server_Shutdown : string -> Z -> option error.
Variable net_Listen : string -> option error.

Local Abbreviation Configure :=
  (@Lifecycle.Configure Script Certificate LoadProxyScript fw_refuses
     Interface_Name).
Local Abbreviation ConfigureTLS :=
  (@Lifecycle.ConfigureTLS Script Certificate LoadProxyScript fw_refuses
     Interface_Name ReadFile X509KeyPair ParseLeaf).
Local Abbreviation Stop :=
  (@Lifecycle.Stop Script Certificate fw_refuses Server_Shutdown).

Lemma Configure_effects (address : string) (proxyPort httpPort : Z)
    (scriptPath : string) (p : Lifecycle.HTTPProxy Script)
    (w : Lifecycle.World Certificate) :
  scriptPath = "" \/ fst (LoadProxyScript scriptPath) = None ->
  let r := mkRedirection Interface_Name "TCP" httpPort address proxyPort in
  let '(p', w', res) := Configure address proxyPort httpPort scriptPath p w in
  Lifecycle.calls w' =
    (Lifecycle.calls w ++
     (if Lifecycle.forwarding (Lifecycle.fw w) then []
      else [Lifecycle.FwEnableForwarding true]) ++
     [Lifecycle.FwEnableRedirection r true])%list /\
  Lifecycle.Address p' = address /\
  Lifecycle.Server_Addr p' = address ++ ":" ++ itoa proxyPort /\
  Lifecycle.PRedirection p' = Some r /\
  res = fw_refuses
          (if Lifecycle.forwarding (Lifecycle.fw w) then Lifecycle.fw w
           else Lifecycle.mkFirewall true
                  (Lifecycle.redirections (Lifecycle.fw w)))
          r true.
Proof.
  intros Hloaded. unfold Lifecycle.Configure.
  unfold Lifecycle.EnableRedirection, Lifecycle.IsForwardingEnabled.
  destruct (String.eqb_spec scriptPath "") as [Hnone|Hpath]; simpl.
  - destruct (Lifecycle.forwarding (Lifecycle.fw w)) eqn:Hfwd; simpl;
      destruct (fw_refuses _ _ true) eqn:Hfw; simpl;
      repeat split; try (now rewrite <- app_assoc); congruence.
  - destruct Hloaded as [|Hloaded]; [contradiction|].
    destruct (LoadProxyScript scriptPath) as [failure script].
    simpl in Hloaded. subst failure. simpl.
    destruct (Lifecycle.forwarding (Lifecycle.fw w)) eqn:Hfwd; simpl;
      destruct (fw_refuses _ _ true) eqn:Hfw; simpl;
      repeat split; try (now rewrite <- app_assoc); congruence.
Qed.

(** When the script loads, or none is asked for, [Configure] (lines
    146-168) sets the server address to [address:proxyPort], switches
    forwarding on only if it was off, then asks the firewall for the
    redirection of [httpPort] to [address:proxyPort] over TCP on the
    session's interface, keeps that descriptor, and returns the firewall's
    answer. *)
Theorem Configure_call_order (address : string) (proxyPort httpPort : Z)
    (scriptPath : string) (p : Lifecycle.HTTPProxy Script)
    (w : Lifecycle.World Certificate) :
  scriptPath = "" \/ fst (LoadProxyScript scriptPath) = None ->
  let r := mkRedirection Interface_Name "TCP" httpPort address proxyPort in
  let '(p', w', res) := Configure address proxyPort httpPort scriptPath p w in
  Lifecycle.calls w' =
    (Lifecycle.calls w ++
     (if Lifecycle.forwarding (Lifecycle.fw w) then []
      else [Lifecycle.FwEnableForwarding true]) ++
     [Lifecycle.FwEnableRedirection r true])%list /\
  Lifecycle.Address p' = address /\
  Lifecycle.Server_Addr p' = address ++ ":" ++ itoa proxyPort /\
  Lifecycle.PRedirection p' = Some r /\
  res = fw_refuses
          (if Lifecycle.forwarding (Lifecycle.fw w) then Lifecycle.fw w
           else Lifecycle.mkFirewall true
                  (Lifecycle.redirections (Lifecycle.fw w)))
          r true.
Proof. apply Configure_effects. Qed.

Lemma Configure_keeps_goproxyCa (address : string) (proxyPort httpPort : Z)
    (scriptPath : string) (p : Lifecycle.HTTPProxy Script)
    (w : Lifecycle.World Certificate) :
  Lifecycle.goproxyCa
    (snd (fst (Configure address proxyPort httpPort scriptPath p w))) =
  Lifecycle.goproxyCa w.
Proof.
  unfold Lifecycle.Configure.
  destruct (String.eqb scriptPath ""); simpl.
  - destruct (Lifecycle.IsForwardingEnabled w); simpl;
      unfold Lifecycle.EnableRedirection;
      destruct (fw_refuses _ _ true); reflexivity.
  - destruct (LoadProxyScript scriptPath) as [[err|] script]; simpl;
      [reflexivity|].
    destruct (Lifecycle.IsForwardingEnabled _); simpl;
      unfold Lifecycle.EnableRedirection;
      destruct (fw_refuses _ _ true); reflexivity.
Qed.

Lemma Configure_keeps_identity (address : string) (proxyPort httpPort : Z)
    (scriptPath : string) (p : Lifecycle.HTTPProxy Script)
    (w : Lifecycle.World Certificate) :
  let p' := fst (fst (Configure address proxyPort httpPort scriptPath p w)) in
  Lifecycle.isTLS p' = Lifecycle.isTLS p /\
  Lifecycle.Name p' = Lifecycle.Name p /\
  Lifecycle.CertFile p' = Lifecycle.CertFile p /\
  Lifecycle.KeyFile p' = Lifecycle.KeyFile p.
Proof.
  unfold Lifecycle.Configure.
  destruct (String.eqb scriptPath ""); simpl.
  - destruct (Lifecycle.IsForwardingEnabled w); simpl;
      unfold Lifecycle.EnableRedirection;
      destruct (fw_refuses _ _ true); simpl; repeat split.
  - destruct (LoadProxyScript scriptPath) as [[err|] script]; simpl;
      [repeat split|].
    destruct (Lifecycle.IsForwardingEnabled _); simpl;
      unfold Lifecycle.EnableRedirection;
      destruct (fw_refuses _ _ true); simpl; repeat split.
Qed.

(** [ConfigureTLS] (lines 204-234) returns no error exactly when
    [Configure] returns none, the two files make a key pair and the pair's
    first certificate parses.  Only then is the CA handed to goproxy; a
    failing call leaves goproxy's CA as it was.  The proxy is marked TLS
    under the name [https.proxy], with the two paths kept, as soon as
    [Configure] has returned no error, before the CA is read and whether
    or not it is good (lines 210-213); when [Configure] itself fails, its
    error is returned and these four fields are left as they were. *)
Theorem ConfigureTLS_succeeds_exactly (address : string) (proxyPort httpPort : Z)
    (scriptPath certFile keyFile : string) (p : Lifecycle.HTTPProxy Script)
    (w : Lifecycle.World Certificate) :
  let configured := Configure address proxyPort httpPort scriptPath p w in
  let '(p', w', res) :=
    ConfigureTLS address proxyPort httpPort scriptPath certFile keyFile p w in
  (res = None <->
   snd configured = None /\
   exists ca ca',
     X509KeyPair (ReadFile certFile) (ReadFile keyFile) = inl ca /\
     ParseLeaf ca = inl ca') /\
  (res <> None -> Lifecycle.goproxyCa w' = Lifecycle.goproxyCa w) /\
  (res = None ->
   exists ca ca',
     X509KeyPair (ReadFile certFile) (ReadFile keyFile) = inl ca /\
     ParseLeaf ca = inl ca' /\
     Lifecycle.goproxyCa w' = Some ca') /\
  (snd configured = None ->
   Lifecycle.isTLS p' = true /\
   Lifecycle.Name p' = "https.proxy" /\
   Lifecycle.CertFile p' = certFile /\
   Lifecycle.KeyFile p' = keyFile) /\
  (forall err,
      snd configured = Some err ->
      res = Some err /\
      Lifecycle.isTLS p' = Lifecycle.isTLS p /\
      Lifecycle.Name p' = Lifecycle.Name p /\
      Lifecycle.CertFile p' = Lifecycle.CertFile p /\
      Lifecycle.KeyFile p' = Lifecycle.KeyFile p).
Proof.
  intros configured.
  pose proof (Configure_keeps_goproxyCa address proxyPort httpPort scriptPath p w)
    as Hca.
  pose proof (Configure_keeps_identity address proxyPort httpPort scriptPath p w)
    as Hid.
  fold configured in Hca, Hid.
  unfold Lifecycle.ConfigureTLS. fold configured.
  destruct configured as [[p1 w1] [err|]]; simpl in *.
  { split; [|split; [|split; [|split]]].
    - split; [discriminate|]. intros [Hnone _]. discriminate Hnone.
    - intros _. exact Hca.
    - discriminate.
    - discriminate.
    - intros err' [= <-]. split; [reflexivity | exact Hid]. }
  destruct (X509KeyPair (ReadFile certFile) (ReadFile keyFile)) as [ca|err].
  - destruct (ParseLeaf ca) as [ca'|err] eqn:Hleaf; simpl.
    + split; [|split; [|split; [|split]]].
      * split; [|reflexivity]. intros _. split; [reflexivity|].
        now exists ca, ca'.
      * intros Hres. now contradict Hres.
      * intros _. exists ca, ca'. now repeat split.
      * intros _. now repeat split.
      * discriminate.
    + split; [|split; [|split; [|split]]].
      * split; [discriminate|]. intros (_ & ca0 & ca' & [= <-] & Hleaf').
        rewrite Hleaf in Hleaf'. discriminate.
      * intros _. exact Hca.
      * discriminate.
      * intros _. now repeat split.
      * discriminate.
  - split; [|split; [|split; [|split]]].
    + split; [discriminate|]. intros (_ & ca0 & ca' & Hpair & _).
      discriminate.
    + intros _. exact Hca.
    + discriminate.
    + intros _. now repeat split.
    + discriminate.
Qed.

Lemma shutdown_listener_effect (p0 : Lifecycle.HTTPProxy Script)
    (w0 : Lifecycle.World Certificate) :
  let '(p', w', e) := Lifecycle.shutdown_listener Server_Shutdown p0 w0 in
  Lifecycle.fw w' = Lifecycle.fw w0 /\
  exists made,
    Lifecycle.calls w' = (Lifecycle.calls w0 ++ made)%list /\
    Forall (fun c => Lifecycle.is_shutdown c = true) made.
Proof.
  unfold Lifecycle.shutdown_listener.
  destruct (Lifecycle.isTLS p0); [destruct (Lifecycle.sniListener p0)|];
    simpl; (split; [reflexivity|]).
  - eexists. split; [reflexivity|]. now repeat constructor.
  - exists []. split; [now rewrite app_nil_r | constructor].
  - eexists. split; [reflexivity|]. now repeat constructor.
Qed.

(** Whatever happens, [Stop] (lines 329-347) leaves the forwarding switch
    as it is, and the calls it makes are the removal of its own
    redirection, if it has one, and the shutdown of its listener; the
    forwarding that [Configure] switched on is never switched off. *)
Theorem Stop_leaves_forwarding (p : Lifecycle.HTTPProxy Script)
    (w : Lifecycle.World Certificate) :
  let '(p', w', e) := Stop p w in
  Lifecycle.forwarding (Lifecycle.fw w') = Lifecycle.forwarding (Lifecycle.fw w) /\
  exists made,
    Lifecycle.calls w' = (Lifecycle.calls w ++ made)%list /\
    Forall (fun c =>
              Lifecycle.is_shutdown c = true \/
              exists r,
                Lifecycle.PRedirection p = Some r /\
                c = Lifecycle.FwEnableRedirection r false) made.
Proof.
  pose proof shutdown_listener_effect as Hdown.
  unfold Lifecycle.Stop.
  destruct (Lifecycle.PRedirection p) as [r|] eqn:Hred.
  - unfold Lifecycle.EnableRedirection. simpl.
    destruct (fw_refuses (Lifecycle.fw w) r false) as [err|]; simpl.
    + split; [reflexivity|]. eexists. split; [reflexivity|].
      constructor; [|constructor]. right. now exists r.
    + match goal with
      | |- context [Lifecycle.shutdown_listener _ ?p0 ?w0] =>
          specialize (Hdown p0 w0);
          destruct (Lifecycle.shutdown_listener Server_Shutdown p0 w0)
            as [[p' w'] e]
      end.
      destruct Hdown as (Hfw & made & Hcalls & Hmade). simpl in *.
      split; [now rewrite Hfw|].
      exists (Lifecycle.FwEnableRedirection r false :: made).
      split; [now rewrite Hcalls, <- app_assoc|].
      constructor; [right; now exists r|].
      eapply Forall_impl; [exact Hmade|]. intros c Hc. now left.
  - specialize (Hdown p w).
    destruct (Lifecycle.shutdown_listener Server_Shutdown p w) as [[p' w'] e].
    destruct Hdown as (Hfw & made & Hcalls & Hmade).
    split; [now rewrite Hfw|]. exists made. split; [exact Hcalls|].
    eapply Forall_impl; [exact Hmade|]. intros c Hc. now left.
Qed.

(** [Stop] after a successful [Configure] removes the very redirection
    [Configure] installed: the descriptor of the firewall call that ended
    [Configure] is the one [Stop] asks to have removed first; when the
    firewall agrees, the proxy holds no redirection any more, the rule is
    gone, and forwarding is still on. *)
Theorem Stop_undoes_Configure (address : string) (proxyPort httpPort : Z)
    (scriptPath : string) (p p1 : Lifecycle.HTTPProxy Script)
    (w w1 : Lifecycle.World Certificate) :
  let r := mkRedirection Interface_Name "TCP" httpPort address proxyPort in
  Configure address proxyPort httpPort scriptPath p w = (p1, w1, None) ->
  fw_refuses (Lifecycle.fw w1) r false = None ->
  let '(p2, w2, e) := Stop p1 w1 in
  (exists before,
      Lifecycle.calls w1 = (before ++ [Lifecycle.FwEnableRedirection r true])%list) /\
  (exists rest,
      Lifecycle.calls w2 =
        (Lifecycle.calls w1 ++ Lifecycle.FwEnableRedirection r false :: rest)%list /\
      Forall (fun c => Lifecycle.is_shutdown c = true) rest) /\
  Lifecycle.PRedirection p2 = None /\
  ~ In r (Lifecycle.redirections (Lifecycle.fw w2)) /\
  Lifecycle.forwarding (Lifecycle.fw w2) = true.
Proof.
  intros r Hok Haccept.
  destruct (Configure_success _ _ _ _ _ _ _ _ _ _ _ _ _ Hok)
    as (Hfwd & _ & Hred & Hscript).
  assert (Hloaded : scriptPath = "" \/ fst (LoadProxyScript scriptPath) = None).
  { destruct (String.eqb_spec scriptPath "") as [|Hne]; [now left | right].
    revert Hok. unfold Lifecycle.Configure.
    destruct (String.eqb_spec scriptPath "") as [|_]; [contradiction|].
    now destruct (LoadProxyScript scriptPath) as [[err|] script]. }
  pose proof (Configure_effects address proxyPort httpPort scriptPath p w Hloaded)
    as Heff.
  rewrite Hok in Heff. destruct Heff as (Hcalls & _).
  unfold Lifecycle.Stop. rewrite Hred.
  unfold Lifecycle.EnableRedirection. simpl. fold r. rewrite Haccept.
  match goal with
  | |- context [Lifecycle.shutdown_listener _ ?p0 ?w0] =>
      pose proof (shutdown_listener_effect p0 w0) as Hdown;
      destruct (Lifecycle.shutdown_listener Server_Shutdown p0 w0)
        as [[p2 w2] e] eqn:Hshut
  end.
  destruct Hdown as (Hfw & rest & Hcalls2 & Hrest). simpl in *.
  split; [|split; [|split; [|split]]].
  - eexists. rewrite Hcalls. rewrite app_assoc. reflexivity.
  - exists rest. split; [|exact Hrest]. now rewrite Hcalls2, <- app_assoc.
  - revert Hshut. unfold Lifecycle.shutdown_listener.
    destruct (Lifecycle.isTLS p1); [destruct (Lifecycle.sniListener p1)|];
      now intros [= <- _ _].
  - rewrite Hfw. simpl. apply not_In_filter_out.
  - rewrite Hfw. simpl. exact Hfwd.
Qed.

(** In TLS mode [Stop] closes [p.sniListener] without looking at it (lines
    338-341): when no listener is bound, because the worker has not
    started, or because its [net.Listen] failed and left the field [nil]
    (lines 268-271), [Stop] panics, after it has removed the redirection
    and cleared the running flag. *)
Theorem Stop_without_listener_panics (p : Lifecycle.HTTPProxy Script)
    (w : Lifecycle.World Certificate) :
  Lifecycle.isTLS p = true ->
  (Lifecycle.PRedirection p = None \/
   exists r,
     Lifecycle.PRedirection p = Some r /\
     fw_refuses (Lifecycle.fw w) r false = None) ->
  let panics (p0 : Lifecycle.HTTPProxy Script) :=
    let '(p', w', e) := Stop p0 w in
    (exists why, e = Lifecycle.Panics why) /\
    Lifecycle.isRunning p' = false /\
    Lifecycle.PRedirection p' = None /\
    existsb Lifecycle.is_shutdown (Lifecycle.calls w') =
      existsb Lifecycle.is_shutdown (Lifecycle.calls w) in
  (Lifecycle.sniListener p = None -> panics p) /\
  (net_Listen (Lifecycle.Server_Addr p) <> None ->
   snd (Workers.httpsWorker_listen net_Listen p) <> None /\
   panics (fst (Workers.httpsWorker_listen net_Listen p))).
Proof.
  intros Htls Hred.
  assert (Hpanics : forall p0 : Lifecycle.HTTPProxy Script,
             Lifecycle.isTLS p0 = true ->
             Lifecycle.sniListener p0 = None ->
             Lifecycle.PRedirection p0 = Lifecycle.PRedirection p ->
             let '(p', w', e) := Stop p0 w in
             (exists why, e = Lifecycle.Panics why) /\
             Lifecycle.isRunning p' = false /\
             Lifecycle.PRedirection p' = None /\
             existsb Lifecycle.is_shutdown (Lifecycle.calls w') =
               existsb Lifecycle.is_shutdown (Lifecycle.calls w)).
  { intros p0 Htls0 Hl0 Hred0.
    unfold Lifecycle.Stop, Lifecycle.shutdown_listener. rewrite Hred0.
    destruct Hred as [Hnone | (r & Hsome & Haccept)].
    - rewrite Hnone, Htls0, Hl0. simpl. split; [now eexists|]. now repeat split.
    - rewrite Hsome. unfold Lifecycle.EnableRedirection. simpl.
      rewrite Haccept. simpl. rewrite Htls0, Hl0. simpl.
      split; [now eexists|]. repeat split.
      rewrite existsb_app. simpl. now rewrite orb_false_r. }
  simpl. split.
  - intros Hl. now apply Hpanics.
  - intros Hfail. unfold Workers.httpsWorker_listen.
    destruct (net_Listen (Lifecycle.Server_Addr p)) as [err|]; [|contradiction].
    simpl. split; [discriminate|]. now apply Hpanics.
Qed.

End ManagerPaths.

(** ** Workers *)

Section WorkerFacts.

Variable Script : Type.
Variable Certificate : Type.
Variable Conn : Type.
Variable TLSConn : Type.
Variable vhost_TLS : Conn -> TLSConn * option error.
Variable TLSConn_Host : TLSConn -> string.
Variable Conn_RemoteAddr : Conn -> string.
Variable fw_refuses : Lifecycle.Firewall -> Redirection -> bool -> option error.
Variable Server_Shutdown : string -> Z -> option error.
Variable net_Listen : string -> option error.

Local Abbreviation accept_loop :=
  (Workers.accept_loop vhost_TLS TLSConn_Host Conn_RemoteAddr).
Local Abbreviation Stop :=
  (@Lifecycle.Stop Script Certificate fw_refuses Server_Shutdown).

(** Nothing that happens to one connection stops the accept loop (lines
    274-308): every connection [Accept] returns gets a goroutine of its
    own, in order, whatever errors [Accept] returned in between and
    however earlier goroutines ended; every error of [Accept] costs one
    warning and nothing else. *)
Theorem accept_loop_keeps_accepting (accepts : list (Conn + error)) :
  fst (accept_loop accepts) =
    map (fun err => (LWarning, "Error accepting connection: %s.", [AErr err]))
        (Workers.refused accepts) /\
  snd (accept_loop accepts) =
    map (SNI.httpsWorker_conn vhost_TLS TLSConn_Host Conn_RemoteAddr)
        (Workers.accepted accepts) /\
  forall later,
    accept_loop (accepts ++ later)%list =
      ((fst (accept_loop accepts) ++ fst (accept_loop later))%list,
       (snd (accept_loop accepts) ++ snd (accept_loop later))%list).
Proof.
  induction accepts as [|[c|err] accepts (IHw & IHg & IHapp)]; simpl.
  - repeat split. intros later. now destruct (accept_loop later).
  - destruct (accept_loop accepts) as [warnings goroutines]. simpl in *.
    split; [exact IHw|]. split; [now f_equal|].
    intros later. now rewrite IHapp.
  - destruct (accept_loop accepts) as [warnings goroutines]. simpl in *.
    split; [now f_equal|]. split; [exact IHg|].
    intros later. now rewrite IHapp.
Qed.

(** When [net.Listen] succeeds (lines 268-273) the worker is running on a
    listener bound to the server address, and a [Stop] in TLS mode whose
    redirection the firewall removes closes that listener, clears the
    running flag and returns no error. *)
Theorem Stop_closes_bound_listener (p : Lifecycle.HTTPProxy Script)
    (w : Lifecycle.World Certificate) :
  net_Listen (Lifecycle.Server_Addr p) = None ->
  Lifecycle.isTLS p = true ->
  (forall r,
      Lifecycle.PRedirection p = Some r ->
      fw_refuses (Lifecycle.fw w) r false = None) ->
  let '(p1, err) := Workers.httpsWorker_listen net_Listen p in
  err = None /\
  Lifecycle.isRunning p1 = true /\
  Lifecycle.sniListener p1 = Some (Lifecycle.Server_Addr p) /\
  let '(p2, w2, e) := Stop p1 w in
  e = Lifecycle.Returns None /\
  Lifecycle.isRunning p2 = false /\
  Lifecycle.PRedirection p2 = None /\
  exists before,
    Lifecycle.calls w2 =
      (before ++ [Lifecycle.ListenerClose (Lifecycle.Server_Addr p)])%list.
Proof.
  intros Hlisten Htls Haccept. unfold Workers.httpsWorker_listen.
  rewrite Hlisten. repeat split.
  unfold Lifecycle.Stop, Lifecycle.shutdown_listener. simpl.
  destruct (Lifecycle.PRedirection p) as [r|] eqn:Hred.
  - unfold Lifecycle.EnableRedirection. simpl.
    rewrite (Haccept r eq_refl). simpl. rewrite Htls. simpl.
    repeat split. now eexists.
  - rewrite Htls. simpl. repeat split. now eexists.
Qed.

End WorkerFacts.

(** ** The further properties at work *)

Lemma TLSConfigFromCA_frame_witness :
  CertCache.certCache
    (fst (CertCache.TLSConfigFromCA CertCache.toy_sign CertCache.toy_ca
            "test.local:8443"
            (fst (CertCache.TLSConfigFromCA CertCache.toy_sign CertCache.toy_ca
                    "example.com" CertCache.fresh))))
    !! ("example.com", 443)
  = Some ("example.com", 0%nat).
Proof.
  rewrite (proj1 (proj2 (TLSConfigFromCA_frame
                           (string * nat)%type CertCache.toy_sign CertCache.toy_ca
                           "test.local:8443"
                           (fst (CertCache.TLSConfigFromCA CertCache.toy_sign
                                   CertCache.toy_ca "example.com"
                                   CertCache.fresh))))).
  - reflexivity.
  - now eexists.
Defined.

Lemma TLSConfigFromCA_forges_on_miss_witness :
  snd (CertCache.TLSConfigFromCA CertCache.toy_sign CertCache.toy_ca
         "example.com:8443" CertCache.fresh)
  = inl (CertCache.mkConfig true [("example.com", 0%nat)]).
Proof.
  pose proof (TLSConfigFromCA_forges_on_miss
                (string * nat)%type CertCache.toy_sign CertCache.toy_ca
                "example.com:8443" CertCache.fresh ("example.com", 0%nat)
                eq_refl eq_refl) as Hforged.
  destruct (CertCache.TLSConfigFromCA CertCache.toy_sign CertCache.toy_ca
              "example.com:8443" CertCache.fresh) as [st' result].
  exact (proj1 Hforged).
Defined.

Lemma call_each_signs_once_witness :
  let '(st', results) :=
    Sequences.call_each CertCache.toy_sign CertCache.toy_ca
      ["example.com"; "example.com:443"; "example.com:https"] CertCache.fresh in
  CertCache.signings st' = [("example.com", 443)] /\
  results = repeat (inl (CertCache.config_of ("example.com", 0%nat))) 3.
Proof.
  refine (call_each_signs_once
            (string * nat)%type CertCache.toy_sign CertCache.toy_ca
            ["example.com"; "example.com:443"; "example.com:https"]
            "example.com" 443 CertCache.fresh ("example.com", 0%nat)
            _ _ eq_refl eq_refl).
  - discriminate.
  - repeat constructor.
Defined.

Lemma doProxy_accepts_exactly_witness :
  fst (HostFilter.doProxy
         (mkRequest "GET" (mkURL "" "" "/") "test.local" "10.0.0.2:51234" []))
  = true.
Proof.
  apply (proj2 (proj1 (doProxy_accepts_exactly
                         (mkRequest "GET" (mkURL "" "" "/") "test.local"
                                    "10.0.0.2:51234" [])))).
  split; [discriminate|].
  split; intros [rest Hrest]; cbv in Hrest; discriminate Hrest.
Defined.

Lemma NonproxyHandler_forwards_eligible_witness :
  exists req',
    snd (NonproxyHandler
           (mkRequest "GET" (mkURL "" "" "/") "test.local" "10.0.0.2:51234" []))
    = Some req' /\
    URL_Host (ReqURL req') = "test.local".
Proof.
  eexists. split; [reflexivity|].
  apply (proj1 (proj1 (proj2 (NonproxyHandler_forwards_eligible
                                (mkRequest "GET" (mkURL "" "" "/") "test.local"
                                           "10.0.0.2:51234" [])))
                 _ eq_refl)).
Defined.

Lemma dumbResponseWriter_Write_exact_match_only_witness :
  Adapter.wire
    (fst (Adapter.dumbResponseWriter_Write Adapter.Pipe_Write
            (Adapter.mkPipe [] true)
            (Adapter.okConnect ++ list_byte_of_string "x")%list))
  = (Adapter.okConnect ++ list_byte_of_string "x")%list.
Proof.
  rewrite (proj1 (proj2 (dumbResponseWriter_Write_exact_match_only
                           Adapter.Pipe Adapter.Pipe_Write
                           (Adapter.mkPipe [] true)))).
  - reflexivity.
  - discriminate.
Defined.

Lemma Configure_call_order_witness :
  Lifecycle.calls
    (snd (fst (Lifecycle.toy_Configure Lifecycle.refuse_nothing "10.0.0.1" 8080 80
                 "" Lifecycle.NewHTTPProxy Lifecycle.quiet)))
  = [Lifecycle.FwEnableForwarding true;
     Lifecycle.FwEnableRedirection
       (mkRedirection "eth0" "TCP" 80 "10.0.0.1" 8080) true].
Proof.
  pose proof (Configure_call_order
                string (list byte * list byte)%type Lifecycle.toy_LoadProxyScript
                Lifecycle.refuse_nothing "eth0"
                "10.0.0.1" 8080 80 "" Lifecycle.NewHTTPProxy Lifecycle.quiet
                (or_introl eq_refl)) as Horder.
  unfold Lifecycle.toy_Configure.
  destruct (Lifecycle.Configure _ _ _ _ _ _ _ _ _) as [[p' w'] res].
  exact (proj1 Horder).
Defined.

Lemma ConfigureTLS_succeeds_exactly_witness :
  snd (Lifecycle.toy_ConfigureTLS Lifecycle.refuse_nothing "10.0.0.1" 8083 443
         "inject.js" "ca.pem" "ca.key" Lifecycle.NewHTTPProxy Lifecycle.quiet)
  = None /\
  (let failed :=
     Lifecycle.toy_ConfigureTLS Lifecycle.refuse_nothing "10.0.0.1" 8083 443
       "inject.js" "none.pem" "none.key" Lifecycle.NewHTTPProxy Lifecycle.quiet in
   Lifecycle.isTLS (fst (fst failed)) = true /\
   Lifecycle.Name (fst (fst failed)) = "https.proxy").
Proof.
  split.
  - pose proof (ConfigureTLS_succeeds_exactly
                  string (list byte * list byte)%type
                  Lifecycle.toy_LoadProxyScript
                  Lifecycle.refuse_nothing "eth0" Lifecycle.toy_ReadFile
                  Lifecycle.toy_X509KeyPair Lifecycle.toy_ParseLeaf
                  "10.0.0.1" 8083 443 "inject.js" "ca.pem" "ca.key"
                  Lifecycle.NewHTTPProxy Lifecycle.quiet) as Hexact.
    unfold Lifecycle.toy_ConfigureTLS.
    destruct (Lifecycle.ConfigureTLS _ _ _ _ _ _ _ _ _ _ _ _ _ _)
      as [[p' w'] res].
    apply (proj2 (proj1 Hexact)).
    split; [reflexivity|]. now eexists _, _.
  - pose proof (ConfigureTLS_succeeds_exactly
                  string (list byte * list byte)%type
                  Lifecycle.toy_LoadProxyScript
                  Lifecycle.refuse_nothing "eth0" Lifecycle.toy_ReadFile
                  Lifecycle.toy_X509KeyPair Lifecycle.toy_ParseLeaf
                  "10.0.0.1" 8083 443 "inject.js" "none.pem" "none.key"
                  Lifecycle.NewHTTPProxy Lifecycle.quiet) as Hexact.
    unfold Lifecycle.toy_ConfigureTLS.
    destruct (Lifecycle.ConfigureTLS _ _ _ _ _ _ _ _ _ _ _ _ _ _)
      as [[p' w'] res].
    destruct (proj1 (proj2 (proj2 (proj2 Hexact))) eq_refl)
      as (Htls & Hname & _).
    now split.
Defined.

Lemma Stop_undoes_Configure_witness :
  let '(p1, w1, _) :=
    Lifecycle.toy_Configure Lifecycle.refuse_nothing "10.0.0.1" 8080 80 ""
      Lifecycle.NewHTTPProxy Lifecycle.quiet in
  let '(p2, w2, e) := Lifecycle.toy_Stop Lifecycle.refuse_nothing p1 w1 in
  Lifecycle.redirections (Lifecycle.fw w2) = [] /\
  Lifecycle.forwarding (Lifecycle.fw w2) = true /\
  Lifecycle.PRedirection p2 = None.
Proof.
  pose proof (Stop_undoes_Configure
                string (list byte * list byte)%type Lifecycle.toy_LoadProxyScript
                Lifecycle.refuse_nothing "eth0" Lifecycle.toy_Shutdown
                "10.0.0.1" 8080 80 "" Lifecycle.NewHTTPProxy
                (fst (fst (Lifecycle.toy_Configure Lifecycle.refuse_nothing
                             "10.0.0.1" 8080 80 "" Lifecycle.NewHTTPProxy
                             Lifecycle.quiet)))
                Lifecycle.quiet
                (snd (fst (Lifecycle.toy_Configure Lifecycle.refuse_nothing
                             "10.0.0.1" 8080 80 "" Lifecycle.NewHTTPProxy
                             Lifecycle.quiet)))
                eq_refl eq_refl) as Hundone.
  simpl in Hundone. simpl.
  destruct Hundone as (_ & _ & Hred & _ & Hfwd).
  repeat split.
Defined.

Lemma Stop_without_listener_panics_witness :
  let p :=
    Lifecycle.mkProxy "https.proxy" "10.0.0.1" "10.0.0.1:8083" None
      (@None string) "ca.pem" "ca.key" true false None in
  exists why,
    snd (Lifecycle.toy_Stop Lifecycle.refuse_nothing p Lifecycle.quiet)
    = Lifecycle.Panics why.
Proof.
  exact (proj1 (proj1 (Stop_without_listener_panics
                         string (list byte * list byte)%type
                         Lifecycle.refuse_nothing Lifecycle.toy_Shutdown
                         (fun _ => None)
                         (Lifecycle.mkProxy "https.proxy" "10.0.0.1"
                            "10.0.0.1:8083" None (@None string) "ca.pem"
                            "ca.key" true false None)
                         Lifecycle.quiet eq_refl (or_introl eq_refl))
                  eq_refl)).
Defined.

Lemma Stop_closes_bound_listener_witness :
  let p :=
    Lifecycle.mkProxy "https.proxy" "10.0.0.1" "10.0.0.1:8083" None
      (@None string) "ca.pem" "ca.key" true false None in
  let '(p1, err) := Workers.httpsWorker_listen (fun _ => None) p in
  let '(p2, w2, e) := Lifecycle.toy_Stop Lifecycle.refuse_nothing p1 Lifecycle.quiet in
  Lifecycle.calls w2 = [Lifecycle.ListenerClose "10.0.0.1:8083"] /\
  e = Lifecycle.Returns None.
Proof.
  pose proof (Stop_closes_bound_listener
                string (list byte * list byte)%type
                Lifecycle.refuse_nothing Lifecycle.toy_Shutdown (fun _ => None)
                (Lifecycle.mkProxy "https.proxy" "10.0.0.1" "10.0.0.1:8083"
                   None (@None string) "ca.pem" "ca.key" true false None)
                Lifecycle.quiet eq_refl eq_refl
                ltac:(discriminate)) as Hclosed.
  simpl in Hclosed. simpl.
  destruct Hclosed as (_ & _ & _ & Hret & _).
  split; [reflexivity | exact Hret].
Defined.
